(** * QR -> S3 generator: a shallow embedding of [api/main.py]

    The service has one source file.  Its own functions
    ([region_aware_public_url], [safe_key_from_url], [env_check],
    [s3_diagnose], [generate_qr]) are embedded below under their own names.
    The library routines they call are embedded as far as the service uses
    them: [str] methods, [hashlib.sha1], [urllib.parse.urlparse].  What the
    service treats as a black box (the QR encoder, the S3 client, the Unicode
    and IP-address tables behind two checks of [urlparse]) is a field of the
    record [Env].

    Representation.  A Python [str] is the Rocq [string] of its UTF-8 bytes;
    a lone surrogate, which a [str] may hold and UTF-8 has no encoding for,
    is the three bytes of its generalised form (0xED, 0xA0..0xBF,
    0x80..0xBF).  [s.encode("utf-8")] is the byte list of the same string,
    or [UnicodeEncodeError] when the string holds a surrogate
    ([str_encode]).  Every character the code looks for is ASCII, and an
    ASCII byte never occurs inside a multi-byte sequence, so [strip],
    [replace], [find], [startswith] and slicing at positions found that way
    act on the bytes as they do on the code points. *)

From Stdlib Require Import ZArith Ascii String List Bool DecimalString.
From stdpp Require Import base tactics option list gmap strings.

#[local] Open Scope Z_scope.

(* ===================================================================== *)
(** * Python [str] methods *)
(* ===================================================================== *)

Module Str.

Definition char_in (c : ascii) (chars : string) : bool :=
  existsb (Ascii.eqb c) (list_ascii_of_string chars).

(** [x in s] for a one-character [x]. *)
Definition contains (c : ascii) (s : string) : bool := char_in c s.

(** [s.lstrip(chars)] *)
Fixpoint lstrip (chars s : string) : string :=
  match s with
  | EmptyString => EmptyString
  | String c s' => if char_in c chars then lstrip chars s' else s
  end.

(** [s.rstrip(chars)] *)
Fixpoint rstrip (chars s : string) : string :=
  match s with
  | EmptyString => EmptyString
  | String c s' =>
      match rstrip chars s' with
      | EmptyString => if char_in c chars then EmptyString else String c EmptyString
      | r => String c r
      end
  end.

(** [s.strip(chars)] *)
Definition strip (chars s : string) : string := rstrip chars (lstrip chars s).

(** [s[n:]] and [s[:n]] for [0 <= n]. *)
Fixpoint drop (n : nat) (s : string) : string :=
  match n, s with
  | O, _ => s
  | S _, EmptyString => EmptyString
  | S n', String _ s' => drop n' s'
  end.

Fixpoint take (n : nat) (s : string) : string :=
  match n, s with
  | O, _ => EmptyString
  | S _, EmptyString => EmptyString
  | S n', String c s' => String c (take n' s')
  end.

(** [s.startswith(p)] *)
Definition startswith (s p : string) : bool := String.prefix p s.

(** [s.replace(old, new)] for a non-empty [old]: the occurrences are
    taken from the left and do not overlap.  [skip] counts the characters
    of a matched occurrence still to be passed over. *)
Fixpoint replace_from (skip : nat) (old new s : string) : string :=
  match s with
  | EmptyString => EmptyString
  | String c s' =>
      match skip with
      | S k => replace_from k old new s'
      | O =>
          if String.prefix old s
          then new +:+ replace_from (Nat.pred (String.length old)) old new s'
          else String c (replace_from O old new s')
      end
  end.

(** With an empty [old], Python puts [new] before every character and
    at the end. *)
Fixpoint interleave (new s : string) : string :=
  match s with
  | EmptyString => new
  | String c s' => new +:+ String c (interleave new s')
  end.

Definition replace (old new s : string) : string :=
  match old with
  | EmptyString => interleave new s
  | _ => replace_from O old new s
  end.

(** [s.find(c)] and [s.find(c, start)] for a one-character [c];
    [None] is Python's [-1]. *)
Fixpoint find (c : ascii) (s : string) : option nat :=
  match s with
  | EmptyString => None
  | String c' s' => if Ascii.eqb c' c then Some O else S <$> find c s'
  end.

Definition find_from (c : ascii) (start : nat) (s : string) : option nat :=
  (fun i => (start + i)%nat) <$> find c (drop start s).

(** [s.rfind(c)] *)
Fixpoint rfind (c : ascii) (s : string) : option nat :=
  match s with
  | EmptyString => None
  | String c' s' =>
      match rfind c s' with
      | Some i => Some (S i)
      | None => if Ascii.eqb c' c then Some O else None
      end
  end.

(** [s.count(c)] for a one-character [c]. *)
Fixpoint count (c : ascii) (s : string) : nat :=
  match s with
  | EmptyString => O
  | String c' s' => ((if Ascii.eqb c' c then 1 else 0) + count c s')%nat
  end.

(** [s.lower()] on ASCII letters; other bytes are kept. *)
Definition lower_char (c : ascii) : ascii :=
  let n := nat_of_ascii c in
  if ((65 <=? n) && (n <=? 90))%nat then ascii_of_nat (n + 32) else c.

Fixpoint lower (s : string) : string :=
  match s with
  | EmptyString => EmptyString
  | String c s' => String (lower_char c) (lower s')
  end.

(** [c.isascii() and c.isalpha()] *)
Definition is_ascii_alpha (c : ascii) : bool :=
  let n := nat_of_ascii c in
  (((65 <=? n) && (n <=? 90)) || ((97 <=? n) && (n <=? 122)))%nat.

(** [s.isascii()] *)
Definition isascii (s : string) : bool :=
  forallb (fun c => (nat_of_ascii c <? 128)%nat) (list_ascii_of_string s).

(** [bool(s)] *)
Definition truthy (s : string) : bool :=
  match s with EmptyString => false | _ => true end.

(** The bytes [s.encode("utf-8")] returns when it returns; [str_encode]
    below is the method with its error. *)
Definition encode_utf8 (s : string) : list Byte.byte := list_byte_of_string s.

End Str.

(* ===================================================================== *)
(** * [hashlib.sha1]  (FIPS 180-4, section 6.1) *)
(* ===================================================================== *)

Module SHA1.

Definition w32 (x : Z) : Z := Z.land x 0xFFFFFFFF.
Definition add32 (x y : Z) : Z := w32 (x + y).
Definition rotl (n x : Z) : Z :=
  w32 (Z.lor (Z.shiftl x n) (Z.shiftr x (32 - n))).
Definition not32 (x : Z) : Z := Z.lxor x 0xFFFFFFFF.

Definition f (t : nat) (b c d : Z) : Z :=
  if (t <? 20)%nat then Z.lor (Z.land b c) (Z.land (not32 b) d)
  else if (t <? 40)%nat then Z.lxor (Z.lxor b c) d
  else if (t <? 60)%nat
       then Z.lor (Z.lor (Z.land b c) (Z.land b d)) (Z.land c d)
  else Z.lxor (Z.lxor b c) d.

Definition K (t : nat) : Z :=
  if (t <? 20)%nat then 0x5A827999
  else if (t <? 40)%nat then 0x6ED9EBA1
  else if (t <? 60)%nat then 0x8F1BBCDC
  else 0xCA62C1D6.

Definition byte_val (b : Byte.byte) : Z := Z.of_N (Byte.to_N b).

(** The [n] low bytes of [x], most significant first. *)
Fixpoint be_bytes (n : nat) (x : Z) : list Z :=
  match n with
  | O => []
  | S n' => Z.land (Z.shiftr x (8 * Z.of_nat n')) 0xFF :: be_bytes n' x
  end.

(** Padding: a 1 bit, zeros up to 56 mod 64 bytes, the bit length on
    64 bits. *)
Definition pad (msg : list Z) : list Z :=
  let len := Z.of_nat (length msg) in
  let zeros := Z.to_nat ((55 - len) mod 64) in
  msg ++ 0x80 :: repeat 0 zeros ++ be_bytes 8 (8 * len).

Fixpoint be_words (fuel : nat) (bs : list Z) : list Z :=
  match fuel, bs with
  | S k, b0 :: b1 :: b2 :: b3 :: rest =>
      (Z.shiftl b0 24 + Z.shiftl b1 16 + Z.shiftl b2 8 + b3) :: be_words k rest
  | _, _ => []
  end.

(** The message schedule: [n] words after a window of the last 16. *)
Fixpoint expand (n : nat) (win : list Z) : list Z :=
  match n with
  | O => []
  | S n' =>
      let x := rotl 1 (Z.lxor (Z.lxor (Z.lxor (nth 13 win 0) (nth 8 win 0))
                                      (nth 2 win 0)) (nth 0 win 0)) in
      x :: expand n' (tl win ++ [x])
  end.

Definition schedule (block : list Z) : list Z := block ++ expand 64 block.

Definition state : Type := Z * Z * Z * Z * Z.

Definition round (s : state) (tw : nat * Z) : state :=
  let '(a, b, c, d, e) := s in
  let '(t, w) := tw in
  let tmp := add32 (add32 (add32 (add32 (rotl 5 a) (f t b c d)) e) w) (K t) in
  (tmp, a, rotl 30 b, c, d).

Definition compress (h : state) (block : list Z) : state :=
  let '(h0, h1, h2, h3, h4) := h in
  let '(a, b, c, d, e) :=
    fold_left round (combine (seq 0 80) (schedule block)) h in
  (add32 h0 a, add32 h1 b, add32 h2 c, add32 h3 d, add32 h4 e).

Fixpoint blocks (fuel : nat) (ws : list Z) (h : state) : state :=
  match fuel, ws with
  | S k, _ :: _ => blocks k (skipn 16 ws) (compress h (firstn 16 ws))
  | _, _ => h
  end.

Definition init : state :=
  (0x67452301, 0xEFCDAB89, 0x98BADCFE, 0x10325476, 0xC3D2E1F0).

Definition digest (msg : list Byte.byte) : state :=
  let bs := pad (map byte_val msg) in
  let ws := be_words (length bs) bs in
  blocks (length ws) ws init.

Definition hexchars : list ascii :=
  list_ascii_of_string "0123456789abcdef".

Definition hexdigit (x : Z) : ascii :=
  nth (Z.to_nat (Z.land x 0xF)) hexchars "0"%char.

Definition hex8 (x : Z) : string :=
  String (hexdigit (Z.shiftr x 28)) (String (hexdigit (Z.shiftr x 24))
 (String (hexdigit (Z.shiftr x 20)) (String (hexdigit (Z.shiftr x 16))
 (String (hexdigit (Z.shiftr x 12)) (String (hexdigit (Z.shiftr x 8))
 (String (hexdigit (Z.shiftr x 4)) (String (hexdigit x) EmptyString))))))).

(** [hashlib.sha1(msg).hexdigest()] *)
Definition hexdigest (msg : list Byte.byte) : string :=
  let '(h0, h1, h2, h3, h4) := digest msg in
  hex8 h0 +:+ hex8 h1 +:+ hex8 h2 +:+ hex8 h3 +:+ hex8 h4.

End SHA1.

(* ===================================================================== *)
(** * Exceptions, values, the outside world *)
(* ===================================================================== *)

(** The exception classes the handlers tell apart.  [Exception cls msg] is
    an instance of any other subclass of [Exception], for instance
    [ValueError] or the encoder's [DataOverflowError]. *)
Inductive exn : Type :=
| HTTPException (status_code : Z) (detail : string)
| ClientError (message : string)
| Exception (cls : string) (message : string).

Definition ValueError (message : string) : exn := Exception "ValueError" message.

Definition decimal (z : Z) : string := NilZero.string_of_int (Z.to_int z).

(** [str(e)] *)
Definition str_exn (e : exn) : string :=
  match e with
  | HTTPException status_code detail => decimal status_code +:+ ": " +:+ detail
  | ClientError message => message
  | Exception _ message => message
  end.

Inductive outcome (A : Type) : Type :=
| Return (a : A)
| Raise (e : exn).
Arguments Return {A} a.
Arguments Raise {A} e.

Definition bytes : Type := list Byte.byte.

(* ===================================================================== *)
(** * [str.encode("utf-8")] *)
(* ===================================================================== *)

(** A byte 10xxxxxx: inside a character, not at its start. *)
Definition is_continuation (c : ascii) : bool :=
  let n := nat_of_ascii c in ((128 <=? n) && (n <=? 191))%nat.

(** [s] starts with a surrogate U+D800..U+DFFF.  In UTF-8 proper 0xED is
    followed by 0x80..0x9F only. *)
Definition surrogate_at (s : string) : bool :=
  match s with
  | String c1 (String c2 (String c3 _)) =>
      ((nat_of_ascii c1 =? 237) && (160 <=? nat_of_ascii c2)
       && (nat_of_ascii c2 <=? 191))%nat && is_continuation c3
  | _ => false
  end.

(** The code point of the surrogate [s] starts with. *)
Definition surrogate_code (s : string) : Z :=
  match s with
  | String _ (String c2 (String c3 _)) =>
      0xD000 + (Z.of_nat (nat_of_ascii c2) mod 64) * 64
      + Z.of_nat (nat_of_ascii c3) mod 64
  | _ => 0
  end.

(** The number of surrogates in a row [s] starts with. *)
Fixpoint surrogate_run (s : string) : nat :=
  match s with
  | String _ (String _ (String _ rest)) =>
      if surrogate_at s then S (surrogate_run rest) else O
  | _ => O
  end.

(** The first surrogate of [s]: its index in characters, [pos] characters
    having been passed already, and the string from it on. *)
Fixpoint find_surrogate (pos : nat) (s : string) : option (nat * string) :=
  match s with
  | EmptyString => None
  | String c s' =>
      if surrogate_at s then Some (pos, s)
      else find_surrogate (if is_continuation c then pos else S pos) s'
  end.

(** The error of the codec on the surrogates at characters [start] and
    following; its message names the character when there is one, the
    positions when there are several. *)
Definition UnicodeEncodeError (start : nat) (s : string) : exn :=
  Exception "UnicodeEncodeError"
    (match surrogate_run s with
     | 1%nat =>
         let cp := surrogate_code s in
         "'utf-8' codec can't encode character '\u"
         +:+ String (SHA1.hexdigit (Z.shiftr cp 12))
              (String (SHA1.hexdigit (Z.shiftr cp 8))
              (String (SHA1.hexdigit (Z.shiftr cp 4))
              (String (SHA1.hexdigit cp) EmptyString)))
         +:+ "' in position " +:+ decimal (Z.of_nat start)
     | n =>
         "'utf-8' codec can't encode characters in position "
         +:+ decimal (Z.of_nat start) +:+ "-"
         +:+ decimal (Z.of_nat (start + Nat.pred n))
     end +:+ ": surrogates not allowed").

(** [s.encode("utf-8")] *)
Definition str_encode (s : string) : outcome bytes :=
  match find_surrogate 0 s with
  | Some (start, rest) => Raise (UnicodeEncodeError start rest)
  | None => Return (Str.encode_utf8 s)
  end.

(** Python values that occur as keyword arguments and in JSON responses.
    A [dict] literal and a keyword-argument list are association lists in
    source order. *)
#[warning="-register-all"]
Inductive pyval : Type :=
| VNone
| VBool (b : bool)
| VInt (z : Z)
| VStr (s : string)
| VBytes (b : bytes)
| VDict (items : list (string * pyval)).

Definition kwargs : Type := list (string * pyval).

Definition kw_get (k : string) (kw : kwargs) : option pyval :=
  snd <$> List.find (fun p => String.eqb (fst p) k) kw.

Definition kw_keys (kw : kwargs) : list string := map fst kw.

(** The calls made on the [boto3] S3 client. *)
Inductive Call : Type :=
| HeadBucket (kw : kwargs)
| PutObject (kw : kwargs)
| GeneratePresignedUrl (client_method : string) (kw : kwargs).

(** A stored object: what a [put_object] leaves at [(Bucket, Key)]. *)
Record Object : Type := {
  obj_body : option pyval;
  obj_content_type : option pyval;
  obj_cache_control : option pyval;
  obj_acl : option pyval;
}.

(** The world a handler runs in: the bucket contents and the S3 calls made
    so far, oldest first. *)
Record World : Type := {
  objects : gmap (string * string) Object;
  trace : list Call;
}.

(** What lies outside [main.py].  [s3_raises] says whether the client
    raises on a call in a world (credentials, network, permissions);
    [qr_png] is [QRCode(...)], [add_data], [make(fit=True)], [make_image]
    and [save] as one function of the data, giving the PNG bytes or the
    exception raised on the way. *)
Record Env : Type := {
  environ : gmap string string;
  bracketed_netloc_error : string -> option string;
  nfkc_netloc_error : string -> option string;
  qr_png : string -> outcome bytes;
  s3_raises : Call -> World -> option exn;
  s3_head_bucket_response : kwargs -> string;
  s3_presigned : string -> kwargs -> string;
}.

(* ===================================================================== *)
(** * [urllib.parse.urlparse]  (CPython 3.11, [Lib/urllib/parse.py]) *)
(* ===================================================================== *)

Module Urllib.

Definition uses_params : list string :=
  [""; "ftp"; "hdl"; "prospero"; "http"; "imap";
   "https"; "shttp"; "rtsp"; "rtspu"; "sip"; "sips";
   "mms"; "sftp"; "tel"]%string.

Definition scheme_chars : string :=
  "abcdefghijklmnopqrstuvwxyzABCDEFGHIJKLMNOPQRSTUVWXYZ0123456789+-.".

(** The bytes 0x00 to 0x20. *)
Definition WHATWG_C0_CONTROL_OR_SPACE : string :=
  string_of_list_ascii (map ascii_of_nat (seq 0 33)).

Definition UNSAFE_URL_BYTES_TO_REMOVE : list string :=
  map (fun n => String (ascii_of_nat n) EmptyString) [9; 13; 10]%nat.

Record ParseResult : Type := {
  scheme : string;
  netloc : string;
  path : string;
  params : string;
  query : string;
  fragment : string;
}.

(** [_splitnetloc(url, start)] *)
Definition splitnetloc (url : string) (start : nat) : string * string :=
  let delim :=
    fold_left
      (fun delim c =>
         match Str.find_from c start url with
         | Some wdelim => Nat.min delim wdelim
         | None => delim
         end)
      (list_ascii_of_string "/?#") (String.length url) in
  (Str.take (delim - start) (Str.drop start url), Str.drop delim url).

(** [url.split(c, 1)], padded with [""] when [c] does not occur. *)
Definition split1 (c : ascii) (url : string) : string * string :=
  match Str.find c url with
  | Some i => (Str.take i url, Str.drop (S i) url)
  | None => (url, EmptyString)
  end.

(** [_splitparams(url)] *)
Definition splitparams (url : string) : string * string :=
  let found :=
    if Str.contains "/" url
    then match Str.rfind "/" url with
         | Some j => Str.find_from ";" j url
         | None => None
         end
    else Str.find ";" url in
  match found with
  | Some i => (Str.take i url, Str.drop (S i) url)
  | None =>
      (* only reached on the branch with a "/": [return url, ''] *)
      (url, EmptyString)
  end.

(** [_checknetloc(netloc)] *)
Definition checknetloc (env : Env) (netloc : string) : option string :=
  if negb (Str.truthy netloc) || Str.isascii netloc then None
  else nfkc_netloc_error env netloc.

Section urlsplit.
Variable env : Env.

(** [urlsplit(url)] with the default [scheme=''] and
    [allow_fragments=True]; the result carries an empty [params]. *)
Definition urlsplit (url : string) : outcome ParseResult :=
  let url := Str.lstrip WHATWG_C0_CONTROL_OR_SPACE url in
  let url := fold_left (fun u b => Str.replace b "" u)
                       UNSAFE_URL_BYTES_TO_REMOVE url in
  let '(scheme, url) :=
    match Str.find ":" url, url with
    | Some (S i' as i), String c0 _ =>
        if Str.is_ascii_alpha c0
           && forallb (fun c => Str.char_in c scheme_chars)
                      (list_ascii_of_string (Str.take i url))
        then (Str.lower (Str.take i url), Str.drop (S i) url)
        else (EmptyString, url)
    | _, _ => (EmptyString, url)
    end in
  let finish (netloc url : string) : outcome ParseResult :=
    let '(url, fragment) :=
      if Str.contains "#" url then split1 "#" url else (url, EmptyString) in
    let '(url, query) :=
      if Str.contains "?" url then split1 "?" url else (url, EmptyString) in
    match checknetloc env netloc with
    | Some msg => Raise (ValueError msg)
    | None =>
        Return {| scheme := scheme; netloc := netloc; path := url;
                  params := EmptyString; query := query;
                  fragment := fragment |}
    end in
  if String.eqb (Str.take 2 url) "//" then
    let '(netloc, url) := splitnetloc url 2 in
    let has_open := Str.contains "[" netloc in
    let has_close := Str.contains "]" netloc in
    if (has_open && negb has_close) || (has_close && negb has_open)
    then Raise (ValueError "Invalid IPv6 URL")
    else if has_open && has_close then
      match bracketed_netloc_error env netloc with
      | Some msg => Raise (ValueError msg)
      | None => finish netloc url
      end
    else finish netloc url
  else finish EmptyString url.

(** [urlparse(url)] *)
Definition urlparse (url : string) : outcome ParseResult :=
  match urlsplit url with
  | Raise e => Raise e
  | Return r =>
      if existsb (String.eqb (scheme r)) uses_params
         && Str.contains ";" (path r)
      then
        let '(url, params) := splitparams (path r) in
        Return {| scheme := scheme r; netloc := netloc r; path := url;
                  params := params; query := query r;
                  fragment := fragment r |}
      else Return r
  end.
End urlsplit.

End Urllib.

(* ===================================================================== *)
(** * Handlers run in a state and exception monad over [World] *)
(* ===================================================================== *)

Definition M (A : Type) : Type := World -> outcome A * World.

Definition ret {A} (a : A) : M A := fun w => (Return a, w).

Definition raise {A} (e : exn) : M A := fun w => (Raise e, w).

Definition bind {A B} (m : M A) (k : A -> M B) : M B :=
  fun w =>
    match m w with
    | (Return a, w') => k a w'
    | (Raise e, w') => (Raise e, w')
    end.

(** A pure computation that may raise. *)
Definition lift {A} (o : outcome A) : M A := fun w => (o, w).

(** [try: body  except ... as e: handler e]; a handler that does not
    match re-raises. *)
Definition try_except {A} (body : M A) (handler : exn -> M A) : M A :=
  fun w =>
    match body w with
    | (Return a, w') => (Return a, w')
    | (Raise e, w') => handler e w'
    end.

Notation "'do' x <- m ; k" := (bind m (fun x => k))
  (at level 10, x name, m at level 100, k at level 200).
Notation "'do_' m ; k" := (bind m (fun _ => k))
  (at level 10, m at level 100, k at level 200).

(* ===================================================================== *)
(** * The S3 client *)
(* ===================================================================== *)

Module s3.

Definition logged (c : Call) (w : World) : World :=
  {| objects := objects w; trace := trace w ++ [c] |}.

(** The effect of a successful [put_object]: the object is created or
    overwritten. *)
Definition stored (kw : kwargs) (w : World) : World :=
  match kw_get "Bucket" kw, kw_get "Key" kw with
  | Some (VStr b), Some (VStr k) =>
      {| objects :=
           <[(b, k) := {| obj_body := kw_get "Body" kw;
                          obj_content_type := kw_get "ContentType" kw;
                          obj_cache_control := kw_get "CacheControl" kw;
                          obj_acl := kw_get "ACL" kw |}]> (objects w);
         trace := trace w |}
  | _, _ => w
  end.

Section client.
Variable env : Env.

Definition call {A} (c : Call) (result : A) (effect : World -> World) : M A :=
  fun w =>
    match s3_raises env c w with
    | Some e => (Raise e, logged c w)
    | None => (Return result, effect (logged c w))
    end.

(** The response is kept as its [str(...)]: the only use made of it. *)
Definition head_bucket (kw : kwargs) : M string :=
  call (HeadBucket kw) (s3_head_bucket_response env kw) id.

Definition put_object (kw : kwargs) : M unit :=
  call (PutObject kw) tt (stored kw).

Definition generate_presigned_url (client_method : string) (kw : kwargs)
  : M string :=
  call (GeneratePresignedUrl client_method kw)
       (s3_presigned env client_method kw) id.
End client.

End s3.

(* ===================================================================== *)
(** * [main.py] *)
(* ===================================================================== *)

(** [bool(x)] for an [Optional[str]] *)
Definition truthy (x : option string) : bool :=
  match x with
  | Some s => Str.truthy s
  | None => false
  end.

(** [a or b] on [Optional[str]] *)
Definition py_or (a b : option string) : option string :=
  if truthy a then a else b.

Definition opt_val (x : option string) : pyval :=
  match x with
  | Some s => VStr s
  | None => VNone
  end.

Section config.
Variable env : Env.

(** [os.getenv(name)] *)
Definition getenv (name : string) : option string := environ env !! name.

Definition AWS_REGION : string := default "us-east-1"%string (getenv "AWS_REGION").
Definition AWS_BUCKET : option string := getenv "AWS_BUCKET_NAME".
Definition AWS_KEY : option string :=
  py_or (getenv "AWS_ACCESS_KEY") (getenv "AWS_ACCESS_KEY_ID").
Definition AWS_SECRET : option string :=
  py_or (getenv "AWS_SECRET_KEY") (getenv "AWS_SECRET_ACCESS_KEY").
End config.

Definition region_aware_public_url (bucket key region : string) : string :=
  if String.eqb region "us-east-1"
  then "https://" +:+ bucket +:+ ".s3.amazonaws.com/" +:+ key
  else "https://" +:+ bucket +:+ ".s3." +:+ region +:+ ".amazonaws.com/" +:+ key.

Definition safe_key_from_url (env : Env) (url : string) : outcome string :=
  match Urllib.urlparse env url with
  | Raise e => Raise e
  | Return parsed =>
      let host_path :=
        Str.replace "/" "_"
          (Str.strip "/" (Urllib.netloc parsed +:+ Urllib.path parsed)) in
      let host_path := if negb (Str.truthy host_path) then "root"%string else host_path in
      match str_encode url with
      | Raise e => Raise e
      | Return data =>
          let digest := Str.take 16 (SHA1.hexdigest data) in
          Return ("qr_codes/" +:+ host_path +:+ "_" +:+ digest +:+ ".png")
      end
  end.

Module QRRequest.
Record t : Type := { url : option string }.
End QRRequest.

Definition root : pyval :=
  VDict [("status", VStr "ok"); ("service", VStr "qr-generator");
         ("docs", VStr "/docs")]%string.

Definition env_check (env : Env) : pyval :=
  VDict [("AWS_ACCESS_KEY set", VBool (truthy (AWS_KEY env)));
         ("AWS_SECRET_KEY set", VBool (truthy (AWS_SECRET env)));
         ("AWS_REGION", VStr (AWS_REGION env));
         ("AWS_BUCKET_NAME", opt_val (AWS_BUCKET env))]%string.

Definition diag_body : bytes :=
  Str.encode_utf8 ("diag-ok" +:+ String (ascii_of_nat 10) EmptyString).

Definition s3_diagnose (env : Env) : M pyval :=
  match AWS_BUCKET env with
  | Some bucket =>
      if negb (Str.truthy bucket)
      then raise (HTTPException 500 "AWS_BUCKET_NAME is not set")
      else
        try_except
          (do hb <- s3.head_bucket env [("Bucket", VStr bucket)]%string;
           let key := "healthchecks/diagnostic.txt"%string in
           do_ s3.put_object env
                 [("Bucket", VStr bucket);
                  ("Key", VStr key);
                  ("Body", VBytes diag_body);
                  ("ContentType", VStr "text/plain");
                  ("CacheControl", VStr "public, max-age=60")]%string;
           do presigned <-
             s3.generate_presigned_url env "get_object"
               [("Params", VDict [("Bucket", VStr bucket); ("Key", VStr key)]);
                ("ExpiresIn", VInt 300)]%string;
           ret (VDict [("ok", VBool true);
                       ("configured_region", VStr (AWS_REGION env));
                       ("bucket_head_result", VStr hb);
                       ("presigned_get", VStr presigned)]%string))
          (fun e =>
             match e with
             | ClientError _ =>
                 raise (HTTPException 500 ("S3 diagnose error: " +:+ str_exn e))
             | _ => raise e
             end)
  | None => raise (HTTPException 500 "AWS_BUCKET_NAME is not set")
  end.

(** [req.url if (req and req.url) else url]; a request model is truthy. *)
Definition final_url (req : option QRRequest.t) (url : option string)
  : option string :=
  match req with
  | Some r => if truthy (QRRequest.url r) then QRRequest.url r else url
  | None => url
  end.

Definition missing_url : exn :=
  HTTPException 400 "Provide 'url' in JSON body or as ?url=...".

Definition generate_qr (env : Env) (req : option QRRequest.t)
           (url : option string) : M pyval :=
  match final_url req url with
  | None => raise missing_url
  | Some final_url =>
      if negb (Str.truthy final_url) then raise missing_url
      else if negb (Str.startswith final_url "http://"
                    || Str.startswith final_url "https://")
      then raise (HTTPException 400 "url must start with http:// or https://")
      else
        match AWS_BUCKET env with
        | None => raise (HTTPException 500 "AWS_BUCKET_NAME is not set")
        | Some bucket =>
            if negb (Str.truthy bucket)
            then raise (HTTPException 500 "AWS_BUCKET_NAME is not set")
            else
              do key <- lift (safe_key_from_url env final_url);
              (* Build QR image *)
              do body <- lift (qr_png env final_url);
              try_except
                (do_ s3.put_object env
                       [("Bucket", VStr bucket);
                        ("Key", VStr key);
                        ("Body", VBytes body);
                        ("ContentType", VStr "image/png");
                        ("CacheControl",
                          VStr "public, max-age=31536000, immutable")]%string;
                 let public_url :=
                   region_aware_public_url bucket key (AWS_REGION env) in
                 do presigned_url <-
                   s3.generate_presigned_url env "get_object"
                     [("Params",
                        VDict [("Bucket", VStr bucket); ("Key", VStr key)]);
                      ("ExpiresIn", VInt 900)]%string;
                 ret (VDict [("ok", VBool true);
                             ("bucket", VStr bucket);
                             ("key", VStr key);
                             ("public_url", VStr public_url);
                             ("presigned_url", VStr presigned_url);
                             ("source_url", VStr final_url)]%string))
                (fun e =>
                   match e with
                   | ClientError _ =>
                       raise (HTTPException 500 ("S3 error: " +:+ str_exn e))
                   | _ => raise (HTTPException 500 (str_exn e))
                   end)
        end
  end.

(* ===================================================================== *)
(** * Vocabulary of the statements *)
(* ===================================================================== *)

(** The slug and the key as the specification words them; the theorems
    compare them with what [safe_key_from_url] computes. *)
Module Spec.
(** Every character of [s] is [c]. *)
Fixpoint only (c : ascii) (s : string) : bool :=
  match s with
  | EmptyString => true
  | String x s' => Ascii.eqb x c && only c s'
  end.

Definition first_is (c : ascii) (s : string) : bool :=
  match s with
  | EmptyString => false
  | String x _ => Ascii.eqb x c
  end.

Fixpoint last_is (c : ascii) (s : string) : bool :=
  match s with
  | EmptyString => false
  | String x EmptyString => Ascii.eqb x c
  | String _ s' => last_is c s'
  end.

(** Every [a] replaced by [b]. *)
Fixpoint translate (a b : ascii) (s : string) : string :=
  match s with
  | EmptyString => EmptyString
  | String x s' => String (if Ascii.eqb x a then b else x) (translate a b s')
  end.

Definition slug_of (host_path slug : string) : Prop :=
  exists pre core post,
    host_path = pre +:+ core +:+ post
    /\ only "/" pre = true /\ only "/" post = true
    /\ first_is "/" core = false /\ last_is "/" core = false
    /\ slug = translate "/" "_" core.

Definition is_hex (c : ascii) : bool := Str.char_in c "0123456789abcdef".

Fixpoint all_hex (s : string) : bool :=
  match s with
  | EmptyString => true
  | String x s' => is_hex x && all_hex s'
  end.

Definition or_placeholder (slug : string) : string :=
  if String.eqb slug "" then "root"%string else slug.
End Spec.

(** The 16 hexadecimal characters [safe_key_from_url] puts in the key. *)
Definition digest16 (url : string) : string :=
  Str.take 16 (SHA1.hexdigest (Str.encode_utf8 url)).

Definition field (k : string) (v : pyval) : option pyval :=
  match v with
  | VDict items => kw_get k items
  | _ => None
  end.

Definition put_object_keys : list string :=
  ["Bucket"; "Key"; "Body"; "ContentType"; "CacheControl"]%string.

(** A call that is not a write, or a write with exactly the five
    arguments bucket, key, body, content type and cache directive, hence
    without [ACL]. *)
Definition no_acl (c : Call) : Prop :=
  match c with
  | PutObject kw => kw_keys kw = put_object_keys /\ kw_get "ACL" kw = None
  | _ => True
  end.

(** Every call [m] adds to the trace satisfies [P]. *)
Definition emits {A} (P : Call -> Prop) (m : M A) : Prop :=
  forall w, exists new, trace (m w).2 = trace w ++ new /\ Forall P new.

Definition body_url (req : option QRRequest.t) : option string :=
  match req with
  | Some r => QRRequest.url r
  | None => None
  end.

Definition empty_world : World := {| objects := ∅; trace := [] |}.

Definition qr_put_kwargs (bucket key : string) (body : bytes) : kwargs :=
  [("Bucket", VStr bucket); ("Key", VStr key); ("Body", VBytes body);
   ("ContentType", VStr "image/png");
   ("CacheControl", VStr "public, max-age=31536000, immutable")]%string.

Definition qr_object (body : bytes) : Object :=
  {| obj_body := Some (VBytes body);
     obj_content_type := Some (VStr "image/png");
     obj_cache_control := Some (VStr "public, max-age=31536000, immutable");
     obj_acl := None |}.

Definition valid_scheme (u : string) : bool :=
  Str.startswith u "http://" || Str.startswith u "https://".

Definition qr_sign_call (bucket key : string) : Call :=
  GeneratePresignedUrl "get_object"
    [("Params", VDict [("Bucket", VStr bucket); ("Key", VStr key)]);
     ("ExpiresIn", VInt 900)]%string.

Definition qr_response (env : Env) (bucket key u : string) : pyval :=
  VDict [("ok", VBool true);
         ("bucket", VStr bucket);
         ("key", VStr key);
         ("public_url", VStr (region_aware_public_url bucket key (AWS_REGION env)));
         ("presigned_url",
           VStr (s3_presigned env "get_object"
                   [("Params", VDict [("Bucket", VStr bucket); ("Key", VStr key)]);
                    ("ExpiresIn", VInt 900)]%string));
         ("source_url", VStr u)]%string.

(** The world after the write and the signing of a served request. *)
Definition served_world (bucket key : string) (body : bytes) (w : World)
  : World :=
  s3.logged (qr_sign_call bucket key)
    (s3.stored (qr_put_kwargs bucket key body)
       (s3.logged (PutObject (qr_put_kwargs bucket key body)) w)).

(** Nothing past the resolution of the URL stops a request for [u] in [w]:
    the scheme is valid, a bucket is configured, the key deriver and the
    encoder return and the storage client raises on neither call. *)
Definition serves (env : Env) (w : World) (u bucket key : string)
           (body : bytes) : Prop :=
  valid_scheme u = true
  /\ AWS_BUCKET env = Some bucket /\ Str.truthy bucket = true
  /\ safe_key_from_url env u = Return key
  /\ qr_png env u = Return body
  /\ s3_raises env (PutObject (qr_put_kwargs bucket key body)) w = None
  /\ s3_raises env (qr_sign_call bucket key)
       (s3.stored (qr_put_kwargs bucket key body)
          (s3.logged (PutObject (qr_put_kwargs bucket key body)) w)) = None.

(** A configured deployment whose libraries and storage never fail. *)
Definition sample_env : Env :=
  {| environ := {[ "AWS_BUCKET_NAME"%string := "qr-bucket"%string ]};
     bracketed_netloc_error := fun _ => None;
     nfkc_netloc_error := fun _ => None;
     qr_png := fun _ => Return [];
     s3_raises := fun _ _ => None;
     s3_head_bucket_response := fun _ => "{}"%string;
     s3_presigned := fun _ _ => "https://signed.example/"%string |}.

Definition with_environ (environ : gmap string string) : Env :=
  {| environ := environ;
     bracketed_netloc_error := bracketed_netloc_error sample_env;
     nfkc_netloc_error := nfkc_netloc_error sample_env;
     qr_png := qr_png sample_env;
     s3_raises := s3_raises sample_env;
     s3_head_bucket_response := s3_head_bucket_response sample_env;
     s3_presigned := s3_presigned sample_env |}.


(** The calls and the object of the diagnostic endpoint. *)
Definition diag_key : string := "healthchecks/diagnostic.txt".

Definition diag_head_call (bucket : string) : Call :=
  HeadBucket [("Bucket", VStr bucket)]%string.

Definition diag_put_kwargs (bucket : string) : kwargs :=
  [("Bucket", VStr bucket); ("Key", VStr diag_key); ("Body", VBytes diag_body);
   ("ContentType", VStr "text/plain");
   ("CacheControl", VStr "public, max-age=60")]%string.

Definition diag_sign_call (bucket : string) : Call :=
  GeneratePresignedUrl "get_object"
    [("Params", VDict [("Bucket", VStr bucket); ("Key", VStr diag_key)]);
     ("ExpiresIn", VInt 300)]%string.

Definition diag_object : Object :=
  {| obj_body := Some (VBytes diag_body);
     obj_content_type := Some (VStr "text/plain");
     obj_cache_control := Some (VStr "public, max-age=60");
     obj_acl := None |}.

(** A deployment like [sample_env] whose storage refuses every write. *)
Definition read_only_env : Env :=
  {| environ := environ sample_env;
     bracketed_netloc_error := bracketed_netloc_error sample_env;
     nfkc_netloc_error := nfkc_netloc_error sample_env;
     qr_png := qr_png sample_env;
     s3_raises := fun c _ =>
       match c with
       | PutObject _ => Some (ClientError "AccessDenied")
       | _ => None
       end;
     s3_head_bucket_response := s3_head_bucket_response sample_env;
     s3_presigned := s3_presigned sample_env |}.

(** A deployment like [sample_env] whose client cannot sign. *)
Definition unsigned_env : Env :=
  {| environ := environ sample_env;
     bracketed_netloc_error := bracketed_netloc_error sample_env;
     nfkc_netloc_error := nfkc_netloc_error sample_env;
     qr_png := qr_png sample_env;
     s3_raises := fun c _ =>
       match c with
       | GeneratePresignedUrl _ _ => Some (Exception "NoCredentialsError" "Unable to locate credentials")
       | _ => None
       end;
     s3_head_bucket_response := s3_head_bucket_response sample_env;
     s3_presigned := s3_presigned sample_env |}.

(** A deployment like [sample_env] whose bucket cannot be reached. *)
Definition unreachable_env : Env :=
  {| environ := environ sample_env;
     bracketed_netloc_error := bracketed_netloc_error sample_env;
     nfkc_netloc_error := nfkc_netloc_error sample_env;
     qr_png := qr_png sample_env;
     s3_raises := fun c _ =>
       match c with
       | HeadBucket _ => Some (ClientError "Not Found")
       | _ => None
       end;
     s3_head_bucket_response := s3_head_bucket_response sample_env;
     s3_presigned := s3_presigned sample_env |}.

(** A deployment without a bucket name. *)
Definition unconfigured_env : Env := with_environ ∅.

(** [sub s t]: every character of [s] occurs in [t]. *)
Definition sub (s t : string) : Prop :=
  forall c, Str.char_in c s = true -> Str.char_in c t = true.

(** A URL of ASCII characters without square brackets. *)
Definition plain (url : string) : Prop :=
  Str.contains "[" url = false /\ Str.contains "]" url = false
  /\ Str.isascii url = true.

(* ===================================================================== *)
(** * The hash on the standard test vectors *)
(* ===================================================================== *)

Example sha1_abc :
  SHA1.hexdigest (Str.encode_utf8 "abc") = "a9993e364706816aba3e25717850c26c9cd0d89d"%string.
Proof. vm_compute. reflexivity. Qed.

Example sha1_two_blocks :
  SHA1.hexdigest
    (Str.encode_utf8 "abcdbcdecdefdefgefghfghighijhijkijkljklmklmnlmnomnopnopq")
  = "84983e441c3bd26ebaae4aa1f95129e5e54670f1"%string.
Proof. vm_compute. reflexivity. Qed.

(* ===================================================================== *)
(** * Strings *)
(* ===================================================================== *)

Section string_facts.
Implicit Types (s t u : string) (c : ascii).

Lemma append_nil_l s : "" +:+ s = s.
Proof. reflexivity. Qed.

Lemma append_cons c s t : String c s +:+ t = String c (s +:+ t).
Proof. reflexivity. Qed.

Lemma append_nil_r s : s +:+ "" = s.
Proof.
  induction s as [|x s IH]; [reflexivity|]. now rewrite append_cons, IH.
Qed.

Lemma append_assoc s t u : (s +:+ t) +:+ u = s +:+ (t +:+ u).
Proof.
  induction s as [|x s IH]; [reflexivity|]. now rewrite !append_cons, IH.
Qed.

Lemma length_append s t :
  String.length (s +:+ t) = (String.length s + String.length t)%nat.
Proof.
  induction s as [|x s IH]; [reflexivity|]. rewrite append_cons. simpl.
  now rewrite IH.
Qed.

Lemma count_append c s t :
  Str.count c (s +:+ t) = (Str.count c s + Str.count c t)%nat.
Proof.
  induction s as [|x s IH]; [reflexivity|]. rewrite append_cons. simpl.
  rewrite IH. lia.
Qed.

Lemma take_append s t : Str.take (String.length s) (s +:+ t) = s.
Proof.
  induction s as [|x s IH]; [reflexivity|]. rewrite append_cons. simpl.
  now rewrite IH.
Qed.

Lemma drop_append s t : Str.drop (String.length s) (s +:+ t) = t.
Proof.
  induction s as [|x s IH]; [reflexivity|]. rewrite append_cons. simpl.
  exact IH.
Qed.

(** Two splits of one string at the same distance from the end agree. *)
Lemma append_inv_same_length s s' t t' :
  s +:+ t = s' +:+ t' -> String.length t = String.length t' ->
  s = s' /\ t = t'.
Proof.
  revert s'. induction s as [|x s IH]; intros [|x' s'] E L;
    rewrite ?append_cons, ?append_nil_l in E.
  - now split.
  - subst t. simpl in L. rewrite length_append in L. lia.
  - subst t'. simpl in L. rewrite length_append in L. lia.
  - injection E as -> E. destruct (IH _ E L) as [-> ->]. now split.
Qed.

Lemma prefix_single c x s :
  String.prefix (String c "") (String x s) = Ascii.eqb x c.
Proof.
  simpl. destruct (ascii_dec c x) as [->|N].
  - destruct s; now rewrite Ascii.eqb_refl.
  - symmetry. apply Ascii.eqb_neq. congruence.
Qed.

(** Replacing a one-character string by another is a translation. *)
Lemma replace_single a b s :
  Str.replace (String a "") (String b "") s = Spec.translate a b s.
Proof.
  unfold Str.replace. induction s as [|x s IH]; [reflexivity|].
  cbn [Str.replace_from Spec.translate]. rewrite prefix_single.
  cbn [String.length Nat.pred]. rewrite IH. now destruct (Ascii.eqb x a).
Qed.

Lemma count_translate a b s : a <> b -> Str.count a (Spec.translate a b s) = 0%nat.
Proof.
  intros N. induction s as [|x s IH]; simpl; [reflexivity|]. rewrite IH.
  destruct (Ascii.eqb_spec x a) as [->|Nx].
  - destruct (Ascii.eqb_spec b a); [congruence | reflexivity].
  - destruct (Ascii.eqb_spec x a); [congruence | reflexivity].
Qed.

Lemma char_in_single x c : Str.char_in x (String c "") = Ascii.eqb x c.
Proof. unfold Str.char_in. simpl. now rewrite orb_false_r. Qed.

Lemma lstrip_split c s :
  exists pre, s = pre +:+ Str.lstrip (String c "") s
              /\ Spec.only c pre = true
              /\ Spec.first_is c (Str.lstrip (String c "") s) = false.
Proof.
  induction s as [|x s (pre & E & O & F)].
  - now exists ""%string.
  - cbn [Str.lstrip]. rewrite char_in_single.
    destruct (Ascii.eqb x c) eqn:X.
    + exists (String x pre). rewrite append_cons, <- E. simpl.
      now rewrite X, O.
    + exists ""%string. simpl. now rewrite X.
Qed.

Lemma rstrip_split c s :
  exists post, s = Str.rstrip (String c "") s +:+ post
               /\ Spec.only c post = true
               /\ Spec.last_is c (Str.rstrip (String c "") s) = false.
Proof.
  induction s as [|x s (post & E & O & L)].
  - now exists ""%string.
  - cbn [Str.rstrip]. rewrite char_in_single.
    destruct (Str.rstrip (String c "") s) as [|y r] eqn:R.
    + rewrite append_nil_l in E. subst post.
      destruct (Ascii.eqb x c) eqn:X.
      * exists (String x s). simpl. now rewrite X, O.
      * exists s. simpl. now rewrite X.
    + exists post. rewrite append_cons, <- E. now split.
Qed.

Lemma rstrip_first c s :
  Spec.first_is c s = false ->
  Spec.first_is c (Str.rstrip (String c "") s) = false.
Proof.
  destruct s as [|x s]; [reflexivity|]. simpl. intros X.
  rewrite char_in_single, X. now destruct (Str.rstrip (String c "") s).
Qed.

Lemma strip_slug s :
  Spec.slug_of s (Str.replace "/" "_" (Str.strip "/" s)).
Proof.
  destruct (lstrip_split "/" s) as (pre & E1 & O1 & F).
  destruct (rstrip_split "/" (Str.lstrip "/" s)) as (post & E2 & O2 & L).
  exists pre, (Str.strip "/" s), post. unfold Str.strip.
  rewrite <- E2, <- E1. repeat split; try assumption.
  - now apply rstrip_first.
  - apply replace_single.
Qed.
End string_facts.

Section digest_facts.

Lemma hexdigit_is_hex x : Spec.is_hex (SHA1.hexdigit x) = true.
Proof.
  unfold SHA1.hexdigit. generalize (Z.to_nat (Z.land x 15)). intros n.
  do 16 (destruct n as [|n]; [reflexivity|]). now destruct n.
Qed.

(** The digest the key carries. *)
Lemma digest16_shape msg :
  let h := Str.take 16 (SHA1.hexdigest msg) in
  String.length h = 16%nat /\ Spec.all_hex h = true.
Proof.
  unfold SHA1.hexdigest.
  destruct (SHA1.digest msg) as [[[[h0 h1] h2] h3] h4].
  cbv [SHA1.hex8 String.append]. cbn [Str.take String.length Spec.all_hex].
  rewrite !hexdigit_is_hex. now split.
Qed.

Lemma all_hex_no_slash s : Spec.all_hex s = true -> Str.count "/" s = 0%nat.
Proof.
  induction s as [|x s IH]; [reflexivity|]. simpl.
  intros [X A]%andb_true_iff. rewrite (IH A).
  destruct (Ascii.eqb_spec x "/") as [->|_]; [discriminate X | reflexivity].
Qed.
End digest_facts.

Section encode_facts.

(** What the codec returns is the bytes of the string. *)
Lemma str_encode_returns s data :
  str_encode s = Return data -> data = Str.encode_utf8 s.
Proof.
  unfold str_encode. destruct (find_surrogate 0 s) as [[start rest]|];
    [discriminate | congruence].
Qed.

Lemma surrogate_at_not_ascii c s :
  (nat_of_ascii c <? 128)%nat = true -> surrogate_at (String c s) = false.
Proof.
  intros A%Nat.ltb_lt. unfold surrogate_at.
  destruct s as [|c2 [|c3 s]]; try reflexivity.
  destruct (Nat.eqb_spec (nat_of_ascii c) 237) as [E|_]; [lia | reflexivity].
Qed.

Lemma find_surrogate_ascii n s :
  Str.isascii s = true -> find_surrogate n s = None.
Proof.
  unfold Str.isascii. revert n. induction s as [|c s IH]; intros n;
    [reflexivity|].
  cbn [list_ascii_of_string forallb find_surrogate].
  intros [A B]%andb_true_iff. rewrite (surrogate_at_not_ascii _ _ A).
  now apply IH.
Qed.

(** ASCII text always encodes. *)
Lemma str_encode_ascii s :
  Str.isascii s = true -> str_encode s = Return (Str.encode_utf8 s).
Proof.
  intros A. unfold str_encode. now rewrite (find_surrogate_ascii _ _ A).
Qed.
End encode_facts.

Section key_facts.
Variable env : Env.

(** The key deriver returns exactly when the parser and the codec do. *)
Lemma safe_key_from_url_unfold url :
  safe_key_from_url env url =
  match Urllib.urlparse env url with
  | Raise e => Raise e
  | Return parsed =>
      match str_encode url with
      | Raise e => Raise e
      | Return _ =>
          Return ("qr_codes/"
                  +:+ Spec.or_placeholder
                        (Str.replace "/" "_"
                           (Str.strip "/"
                              (Urllib.netloc parsed +:+ Urllib.path parsed)))
                  +:+ "_" +:+ digest16 url +:+ ".png")
      end
  end.
Proof.
  unfold safe_key_from_url, Spec.or_placeholder, digest16.
  destruct (Urllib.urlparse env url) as [p|e]; [|reflexivity].
  destruct (str_encode url) as [data|e] eqn:E; [|reflexivity].
  rewrite (str_encode_returns _ _ E). now destruct (Str.replace _ _ _).
Qed.

Lemma or_placeholder_no_slash s :
  Str.count "/" (Spec.or_placeholder (Str.replace "/" "_" s)) = 0%nat.
Proof.
  unfold Spec.or_placeholder. rewrite replace_single.
  destruct (String.eqb _ _); [reflexivity|]. now apply count_translate.
Qed.
End key_facts.

(* ===================================================================== *)
(** * The key deriver *)
(* ===================================================================== *)

(** C1 (amended).  Whenever [urlparse] accepts [url] and [url] encodes to
    UTF-8, [safe_key_from_url] returns exactly
    ["qr_codes/" + slug + "_" + h + ".png"]: the slug is the host of the URL
    followed by its path, as the parser gives them ([netloc] and [path]),
    without its leading and trailing ['/'] and with every other ['/']
    turned into ['_'], and is ["root"] when that leaves nothing; [h] is the
    first 16 characters, all hexadecimal, of the SHA-1 of the encoded,
    unmodified [url]. *)
Theorem safe_key_from_url_spec env url parsed data :
  Urllib.urlparse env url = Return parsed ->
  str_encode url = Return data ->
  exists slug h,
    Spec.slug_of (Urllib.netloc parsed +:+ Urllib.path parsed) slug
    /\ h = Str.take 16 (SHA1.hexdigest data)
    /\ String.length h = 16%nat /\ Spec.all_hex h = true
    /\ safe_key_from_url env url
       = Return ("qr_codes/" +:+ Spec.or_placeholder slug +:+ "_" +:+ h +:+ ".png").
Proof.
  intros P E. rewrite safe_key_from_url_unfold, P, E. unfold digest16.
  rewrite <- (str_encode_returns _ _ E).
  eexists _, _. split; [apply strip_slug|]. split; [reflexivity|].
  destruct (digest16_shape data) as [L H]. now repeat split.
Qed.

Lemma safe_key_from_url_spec_witness :
  exists slug h,
    Spec.slug_of "example.com/page" slug
    /\ h = Str.take 16
             (SHA1.hexdigest (Str.encode_utf8 "https://example.com/page"))
    /\ String.length h = 16%nat /\ Spec.all_hex h = true
    /\ safe_key_from_url sample_env "https://example.com/page"
       = Return ("qr_codes/" +:+ Spec.or_placeholder slug +:+ "_" +:+ h +:+ ".png").
Proof.
  apply (safe_key_from_url_spec sample_env "https://example.com/page"
           {| Urllib.scheme := "https"; Urllib.netloc := "example.com";
              Urllib.path := "/page"; Urllib.params := "";
              Urllib.query := ""; Urllib.fragment := "" |}
           (Str.encode_utf8 "https://example.com/page"));
    vm_compute; reflexivity.
Defined.

(** C1 as stated fails: the key deriver is not total.  An unmatched
    bracket in the host makes [urlparse] raise, and a lone surrogate, here
    U+D800 after ["https://a.com/"], makes the encoding of a URL the parser
    accepts raise.  Neither exception is handled in the deriver. *)
Lemma safe_key_from_url_not_total :
  safe_key_from_url sample_env "http://[" = Raise (ValueError "Invalid IPv6 URL")
  /\ ~ (exists key, safe_key_from_url sample_env "http://[" = Return key)
  /\ (exists parsed,
        Urllib.urlparse sample_env
          ("https://a.com/" +:+ String "237" (String "160" (String "128" "")))
        = Return parsed)
  /\ safe_key_from_url sample_env
       ("https://a.com/" +:+ String "237" (String "160" (String "128" "")))
     = Raise (Exception "UnicodeEncodeError"
                "'utf-8' codec can't encode character '\ud800' in position 14: surrogates not allowed")
  /\ ~ (exists key,
          safe_key_from_url sample_env
            ("https://a.com/" +:+ String "237" (String "160" (String "128" "")))
          = Return key).
Proof.
  assert (E : safe_key_from_url sample_env "http://["
              = Raise (ValueError "Invalid IPv6 URL")) by (vm_compute; reflexivity).
  assert (F : safe_key_from_url sample_env
                ("https://a.com/" +:+ String "237" (String "160" (String "128" "")))
              = Raise (Exception "UnicodeEncodeError"
                         "'utf-8' codec can't encode character '\ud800' in position 14: surrogates not allowed"))
    by (vm_compute; reflexivity).
  split; [exact E|]. split; [intros [key K]; rewrite E in K; discriminate K|].
  split; [eexists; vm_compute; reflexivity|].
  split; [exact F|]. intros [key K]. rewrite F in K. discriminate K.
Qed.

(** C5.  A key returned by [safe_key_from_url] contains exactly one ['/']:
    the one that ends the ["qr_codes/"] prefix.  Nothing after the prefix
    contains a ['/']. *)
Theorem key_has_one_slash env url key :
  safe_key_from_url env url = Return key ->
  Str.count "/" key = 1%nat
  /\ Str.take 9 key = "qr_codes/"%string
  /\ Str.count "/" (Str.drop 9 key) = 0%nat.
Proof.
  rewrite safe_key_from_url_unfold.
  destruct (Urllib.urlparse env url) as [p|e]; [|discriminate].
  destruct (str_encode url) as [data|e]; [|discriminate].
  intros [= <-].
  assert (Z : Str.count "/"
                (Spec.or_placeholder
                   (Str.replace "/" "_"
                      (Str.strip "/" (Urllib.netloc p +:+ Urllib.path p)))
                 +:+ "_" +:+ digest16 url +:+ ".png") = 0%nat).
  { rewrite !count_append, or_placeholder_no_slash. unfold digest16.
    rewrite (all_hex_no_slash _ (proj2 (digest16_shape _))). reflexivity. }
  change 9%nat with (String.length "qr_codes/").
  change (Str.replace_from 0 "/" "_") with (Str.replace "/" "_").
  rewrite take_append, drop_append, count_append, Z. now repeat split.
Qed.

(** C7.  Two URLs whose truncated hashes differ get different keys: the
    keys of two URLs can coincide only when the 16-character hashes of the
    two full URL strings coincide, whatever their slugs. *)
Theorem distinct_digests_distinct_keys env u1 u2 key1 key2 :
  safe_key_from_url env u1 = Return key1 ->
  safe_key_from_url env u2 = Return key2 ->
  Str.take 16 (SHA1.hexdigest (Str.encode_utf8 u1))
  <> Str.take 16 (SHA1.hexdigest (Str.encode_utf8 u2)) ->
  key1 <> key2.
Proof.
  rewrite !safe_key_from_url_unfold.
  destruct (Urllib.urlparse env u1) as [p1|]; [|discriminate].
  destruct (Urllib.urlparse env u2) as [p2|]; [|discriminate].
  destruct (str_encode u1) as [d1|]; [|discriminate].
  destruct (str_encode u2) as [d2|]; [|discriminate].
  intros [= <-] [= <-] D E. apply D. fold (digest16 u1) (digest16 u2).
  apply String.app_inj in E.
  rewrite <- !append_assoc in E.
  apply append_inv_same_length in E as [E _]; [|reflexivity].
  apply append_inv_same_length in E as [_ E]; [exact E|].
  unfold digest16.
  now rewrite (proj1 (digest16_shape _)), (proj1 (digest16_shape _)).
Qed.

Lemma distinct_digests_distinct_keys_witness :
  exists key1 key2,
    safe_key_from_url sample_env "https://a.com" = Return key1
    /\ safe_key_from_url sample_env "https://b.com" = Return key2
    /\ key1 <> key2.
Proof.
  eexists _, _. split; [vm_compute; reflexivity|].
  split; [vm_compute; reflexivity|].
  apply (distinct_digests_distinct_keys sample_env "https://a.com" "https://b.com");
    [vm_compute; reflexivity | vm_compute; reflexivity | vm_compute; discriminate].
Defined.

(* ===================================================================== *)
(** * Calls a handler adds to the trace *)
(* ===================================================================== *)

Section emits.
Context {A B : Type} (P : Call -> Prop).

Lemma emits_ret (a : A) : emits P (ret a).
Proof. intros w. exists []. now rewrite app_nil_r. Qed.

Lemma emits_raise e : emits P (@raise A e).
Proof. intros w. exists []. now rewrite app_nil_r. Qed.

Lemma emits_lift (o : outcome A) : emits P (lift o).
Proof. intros w. exists []. now rewrite app_nil_r. Qed.

Lemma emits_bind (m : M A) (k : A -> M B) :
  emits P m -> (forall a, emits P (k a)) -> emits P (bind m k).
Proof.
  intros Hm Hk w. unfold bind. destruct (Hm w) as (n1 & E1 & F1).
  destruct (m w) as [[a|e] w1]; simpl in *.
  - destruct (Hk a w1) as (n2 & E2 & F2). exists (n1 ++ n2).
    rewrite E2, E1, app_assoc. split; [reflexivity | now apply Forall_app].
  - now exists n1.
Qed.

Lemma emits_try (body : M A) (handler : exn -> M A) :
  emits P body -> (forall e, emits P (handler e)) ->
  emits P (try_except body handler).
Proof.
  intros Hm Hk w. unfold try_except. destruct (Hm w) as (n1 & E1 & F1).
  destruct (body w) as [[a|e] w1]; simpl in *.
  - now exists n1.
  - destruct (Hk e w1) as (n2 & E2 & F2). exists (n1 ++ n2).
    rewrite E2, E1, app_assoc. split; [reflexivity | now apply Forall_app].
Qed.

Lemma emits_call env c (r : A) (effect : World -> World) :
  P c -> (forall w, trace (effect w) = trace w) ->
  emits P (s3.call env c r effect).
Proof.
  intros Hc He w. exists [c]. unfold s3.call.
  destruct (s3_raises env c w); simpl; rewrite ?He; now repeat constructor.
Qed.
End emits.

Lemma trace_stored kw w : trace (s3.stored kw w) = trace w.
Proof. unfold s3.stored. now repeat case_match. Qed.

Create HintDb emits.
#[local] Hint Resolve emits_ret emits_raise emits_lift trace_stored : emits.

Ltac emits_step :=
  first [ apply emits_bind; [|intros ?]
        | apply emits_try; [|intros ?]
        | apply emits_call; [exact I || (split; reflexivity) | auto with emits]
        | apply emits_ret | apply emits_raise | apply emits_lift ].

(** C9.  Whatever the request, the configuration and the behaviour of the
    storage client, every [put_object] that [generate_qr] or [s3_diagnose]
    issues is called with exactly [Bucket], [Key], [Body], [ContentType]
    and [CacheControl]: no [ACL] argument is passed. *)
Theorem writes_carry_no_acl env req url w :
  (exists new,
      trace (generate_qr env req url w).2 = trace w ++ new
      /\ Forall no_acl new)
  /\ (exists new,
        trace (s3_diagnose env w).2 = trace w ++ new /\ Forall no_acl new).
Proof.
  split; revert w; fold (emits no_acl (generate_qr env req url));
    fold (emits no_acl (s3_diagnose env)).
  - unfold generate_qr, s3.put_object, s3.generate_presigned_url.
    repeat first [emits_step | case_match].
  - unfold s3_diagnose, s3.head_bucket, s3.put_object,
      s3.generate_presigned_url.
    repeat first [emits_step | case_match].
Qed.

(* ===================================================================== *)
(** * The handlers *)
(* ===================================================================== *)

Section generate_qr_facts.
Variable env : Env.

(** Past the three gates the handler is the key deriver, the encoder and
    the guarded storage calls. *)
Lemma generate_qr_missing req q w :
  truthy (final_url req q) = false ->
  generate_qr env req q w = (Raise missing_url, w).
Proof.
  unfold generate_qr. destruct (final_url req q) as [u|]; [|reflexivity].
  simpl. now intros ->.
Qed.

Lemma generate_qr_returns req q w resp w' :
  generate_qr env req q w = (Return resp, w') ->
  exists u bucket key body,
    final_url req q = Some u /\ valid_scheme u = true
    /\ AWS_BUCKET env = Some bucket
    /\ safe_key_from_url env u = Return key
    /\ qr_png env u = Return body
    /\ field "bucket" resp = Some (VStr bucket)
    /\ field "key" resp = Some (VStr key)
    /\ field "source_url" resp = Some (VStr u)
    /\ objects w' = <[(bucket, key) := qr_object body]> (objects w)
    /\ exists presign,
        trace w' = trace w ++ [PutObject (qr_put_kwargs bucket key body); presign].
Proof.
  unfold generate_qr, bind, lift, try_except, raise, ret, s3.put_object,
    s3.generate_presigned_url, s3.call, valid_scheme.
  intros H. repeat (case_match; simplify_eq/=).
  eexists _, _, _, _. repeat (split; [try reflexivity; try eassumption|]).
  - now destruct (_ || _).
  - eexists. now rewrite <- app_assoc.
Qed.
End generate_qr_facts.

Section more_facts.
Variable env : Env.

Lemma valid_scheme_truthy u : valid_scheme u = true -> Str.truthy u = true.
Proof. now destruct u. Qed.

(** The handler past its gates. *)
Lemma generate_qr_succeeds req q w u bucket key body :
  final_url req q = Some u -> valid_scheme u = true ->
  AWS_BUCKET env = Some bucket -> Str.truthy bucket = true ->
  safe_key_from_url env u = Return key ->
  qr_png env u = Return body ->
  let put := PutObject (qr_put_kwargs bucket key body) in
  let w1 := s3.stored (qr_put_kwargs bucket key body) (s3.logged put w) in
  s3_raises env put w = None ->
  s3_raises env (qr_sign_call bucket key) w1 = None ->
  generate_qr env req q w
  = (Return (qr_response env bucket key u), s3.logged (qr_sign_call bucket key) w1).
Proof.
  intros F V B T K Q put w1 P S. unfold generate_qr.
  rewrite F, (valid_scheme_truthy _ V). unfold valid_scheme in V.
  rewrite V, B, T. cbn [negb].
  unfold bind, lift, try_except, s3.put_object, s3.generate_presigned_url,
    s3.call. rewrite K, Q.
  fold (qr_put_kwargs bucket key body). fold put. rewrite P. fold w1.
  fold (qr_sign_call bucket key). rewrite S. reflexivity.
Qed.

Lemma generate_qr_key_error req q w u bucket e :
  final_url req q = Some u -> valid_scheme u = true ->
  AWS_BUCKET env = Some bucket -> Str.truthy bucket = true ->
  safe_key_from_url env u = Raise e ->
  generate_qr env req q w = (Raise e, w).
Proof.
  intros F V B T K. unfold generate_qr.
  rewrite F, (valid_scheme_truthy _ V). unfold valid_scheme in V.
  rewrite V, B, T. cbn [negb]. unfold bind, lift. now rewrite K.
Qed.

Lemma generate_qr_encoder_error req q w u bucket key e :
  final_url req q = Some u -> valid_scheme u = true ->
  AWS_BUCKET env = Some bucket -> Str.truthy bucket = true ->
  safe_key_from_url env u = Return key ->
  qr_png env u = Raise e ->
  generate_qr env req q w = (Raise e, w).
Proof.
  intros F V B T K Q. unfold generate_qr.
  rewrite F, (valid_scheme_truthy _ V). unfold valid_scheme in V.
  rewrite V, B, T. cbn [negb]. unfold bind, lift. now rewrite K, Q.
Qed.
End more_facts.

(** A request whose effective URL is [u] and that nothing stops is
    answered for [u]. *)
Lemma generate_qr_serves env req q w u bucket key body :
  final_url req q = Some u -> serves env w u bucket key body ->
  generate_qr env req q w
  = (Return (qr_response env bucket key u), served_world bucket key body w).
Proof.
  intros F (V & B & T & K & Q & P & S).
  exact (generate_qr_succeeds env req q w u bucket key body F V B T K Q P S).
Qed.

Lemma generate_qr_bad_scheme env req q w u :
  final_url req q = Some u -> u <> ""%string -> valid_scheme u = false ->
  generate_qr env req q w
  = (Raise (HTTPException 400 "url must start with http:// or https://"), w).
Proof.
  intros F N V. unfold generate_qr. rewrite F. unfold valid_scheme in V.
  rewrite V. now destruct u.
Qed.

Lemma sample_key_a :
  safe_key_from_url sample_env "https://a.com"
  = Return "qr_codes/a.com_e5c1f0f86ea666d8.png"%string.
Proof. vm_compute. reflexivity. Qed.

Lemma sample_key_b :
  safe_key_from_url sample_env "https://b.com"
  = Return "qr_codes/b.com_817eef7c0ce3d5b2.png"%string.
Proof. vm_compute. reflexivity. Qed.

Lemma sample_serves_a :
  serves sample_env empty_world "https://a.com" "qr-bucket"
    "qr_codes/a.com_e5c1f0f86ea666d8.png" [].
Proof.
  unfold serves. do 3 (split; [reflexivity|]).
  split; [exact sample_key_a|]. repeat split; reflexivity.
Qed.

Lemma sample_serves_b :
  serves sample_env empty_world "https://b.com" "qr-bucket"
    "qr_codes/b.com_817eef7c0ce3d5b2.png" [].
Proof.
  unfold serves. do 3 (split; [reflexivity|]).
  split; [exact sample_key_b|]. repeat split; reflexivity.
Qed.

(** C2.  A non-empty [url] in the JSON body is the effective URL whatever
    the query parameter is.  The handler validates it and not the query:
    without a valid scheme it is refused with the 400 of the scheme gate,
    and when nothing else stops the request the response, the key and the
    stored object are those of the body's URL.  When neither the body nor
    the query yields a URL the handler raises the 400 error and leaves the
    world untouched. *)
Theorem effective_url_resolution env req q w :
  (forall u,
      body_url req = Some u -> u <> ""%string ->
      final_url req q = Some u
      /\ generate_qr env req q w = generate_qr env None (Some u) w
      /\ (forall resp w',
            generate_qr env req q w = (Return resp, w') ->
            field "source_url" resp = Some (VStr u)
            /\ exists key, safe_key_from_url env u = Return key
                           /\ field "key" resp = Some (VStr key))
      /\ (valid_scheme u = false ->
          generate_qr env req q w
          = (Raise (HTTPException 400 "url must start with http:// or https://"),
             w))
      /\ (forall bucket key body,
            serves env w u bucket key body ->
            generate_qr env req q w
            = (Return (qr_response env bucket key u),
               served_world bucket key body w)))
  /\ (truthy (body_url req) = false -> truthy q = false ->
      generate_qr env req q w
      = (Raise (HTTPException 400 "Provide 'url' in JSON body or as ?url=..."), w)).
Proof.
  split.
  - intros u Hu Hne. destruct req as [r|]; [simpl in Hu | discriminate Hu].
    assert (F : final_url (Some r) q = Some u).
    { unfold final_url. rewrite Hu. simpl. now destruct u. }
    split; [exact F|]. split; [|split; [|split]].
    + unfold generate_qr. now rewrite F.
    + intros resp w' R.
      apply generate_qr_returns in R
        as (u' & b & k & body & F' & _ & _ & K & _ & _ & Fk & Fs & _).
      assert (u' = u) as -> by congruence. eauto.
    + now apply generate_qr_bad_scheme.
    + intros bucket key body S. now apply generate_qr_serves.
  - intros Hb Hq. apply generate_qr_missing.
    destruct req as [r|]; simpl in *; [|exact Hq].
    unfold final_url. now rewrite Hb.
Qed.

Lemma effective_url_resolution_witness :
  generate_qr sample_env (Some {| QRRequest.url := Some "https://a.com"%string |})
    (Some "https://b.com"%string) empty_world
  = (Return (qr_response sample_env "qr-bucket"
               "qr_codes/a.com_e5c1f0f86ea666d8.png" "https://a.com"),
     served_world "qr-bucket" "qr_codes/a.com_e5c1f0f86ea666d8.png" []
       empty_world)
  /\ generate_qr sample_env (Some {| QRRequest.url := Some "ftp://a.com"%string |})
       (Some "https://b.com"%string) empty_world
     = (Raise (HTTPException 400 "url must start with http:// or https://"),
        empty_world)
  /\ generate_qr sample_env (Some {| QRRequest.url := None |}) None empty_world
     = (Raise (HTTPException 400 "Provide 'url' in JSON body or as ?url=..."),
        empty_world).
Proof.
  split; [|split].
  - destruct (effective_url_resolution sample_env
                (Some {| QRRequest.url := Some "https://a.com"%string |})
                (Some "https://b.com"%string) empty_world) as [H _].
    destruct (H "https://a.com"%string eq_refl ltac:(discriminate))
      as (_ & _ & _ & _ & S).
    apply S. exact sample_serves_a.
  - destruct (effective_url_resolution sample_env
                (Some {| QRRequest.url := Some "ftp://a.com"%string |})
                (Some "https://b.com"%string) empty_world) as [H _].
    destruct (H "ftp://a.com"%string eq_refl ltac:(discriminate))
      as (_ & _ & _ & V & _).
    apply V. reflexivity.
  - destruct (effective_url_resolution sample_env
                (Some {| QRRequest.url := None |}) None empty_world) as [_ H].
    apply H; reflexivity.
Defined.

(** C3.  An effective URL that starts with neither ["http://"] nor
    ["https://"] is answered with a 400 error; the world is the one the
    handler started in, so nothing was written and no storage call made. *)
Theorem invalid_scheme_rejected env req q w u :
  final_url req q = Some u ->
  Str.startswith u "http://" = false ->
  Str.startswith u "https://" = false ->
  exists detail,
    generate_qr env req q w = (Raise (HTTPException 400 detail), w).
Proof.
  intros F H1 H2. unfold generate_qr. rewrite F, H1, H2. simpl.
  destruct (Str.truthy u); eexists; reflexivity.
Qed.

Lemma invalid_scheme_rejected_witness :
  exists detail,
    generate_qr sample_env None (Some "ftp://x.com"%string) empty_world
    = (Raise (HTTPException 400 detail), empty_world).
Proof.
  apply (invalid_scheme_rejected sample_env None (Some "ftp://x.com"%string)
           empty_world "ftp://x.com"); reflexivity.
Defined.

(** C10.  A body whose [url] is absent or the empty string supplies no
    URL: the effective URL is the query parameter, the handler answers for
    the query's URL when nothing else stops the request, and raises the
    400 of the missing URL when the query gives none either.  Only a
    non-empty body [url] takes precedence: then the handler answers for
    the body's URL, whatever the query. *)
Theorem falsy_body_url_falls_back env r q w :
  (truthy (QRRequest.url r) = false ->
   final_url (Some r) q = q
   /\ generate_qr env (Some r) q w = generate_qr env None q w
   /\ (truthy q = false ->
       generate_qr env (Some r) q w
       = (Raise (HTTPException 400 "Provide 'url' in JSON body or as ?url=..."),
          w))
   /\ (forall u bucket key body,
         q = Some u -> serves env w u bucket key body ->
         generate_qr env (Some r) q w
         = (Return (qr_response env bucket key u),
            served_world bucket key body w)))
  /\ (forall u,
        QRRequest.url r = Some u -> u <> ""%string ->
        final_url (Some r) q = Some u
        /\ (valid_scheme u = false ->
            generate_qr env (Some r) q w
            = (Raise (HTTPException 400 "url must start with http:// or https://"),
               w))
        /\ (forall bucket key body,
              serves env w u bucket key body ->
              generate_qr env (Some r) q w
              = (Return (qr_response env bucket key u),
                 served_world bucket key body w))).
Proof.
  split.
  - intros H. assert (F : final_url (Some r) q = q).
    { unfold final_url. now rewrite H. }
    split; [exact F|]. split; [|split].
    + unfold generate_qr. now rewrite F.
    + intros Hq. apply generate_qr_missing. now rewrite F.
    + intros u bucket key body -> S. now apply generate_qr_serves.
  - intros u Hu Hne.
    assert (F : final_url (Some r) q = Some u).
    { unfold final_url. rewrite Hu. simpl. now destruct u. }
    split; [exact F|]. split.
    + now apply generate_qr_bad_scheme.
    + intros bucket key body S. now apply generate_qr_serves.
Qed.

(** C6.  Generating twice for one request derives one key: both responses
    carry it, both writes go to it, and the second run overwrites the
    object of the first instead of adding one. *)
Theorem generate_twice_same_key env req q w resp1 w1 resp2 w2 :
  generate_qr env req q w = (Return resp1, w1) ->
  generate_qr env req q w1 = (Return resp2, w2) ->
  exists key,
    field "key" resp1 = Some (VStr key)
    /\ field "key" resp2 = Some (VStr key)
    /\ (exists bucket body sign1 sign2,
          trace w1 = trace w ++ [PutObject (qr_put_kwargs bucket key body); sign1]
          /\ trace w2 = trace w1 ++ [PutObject (qr_put_kwargs bucket key body); sign2])
    /\ dom (objects w2) = dom (objects w1)
    /\ size (objects w2) = size (objects w1).
Proof.
  intros R1 R2.
  apply generate_qr_returns in R1
    as (u & b & k & body & F & _ & B & K & Q & _ & Fk & _ & O1 & s1 & T1).
  apply generate_qr_returns in R2
    as (u' & b' & k' & body' & F' & _ & B' & K' & Q' & _ & Fk' & _ & O2 & s2 & T2).
  assert (u' = u) as -> by congruence.
  assert (b' = b) as -> by congruence.
  assert (k' = k) as -> by congruence.
  assert (body' = body) as -> by congruence. exists k.
  assert (D : dom (objects w2) = dom (objects w1)).
  { rewrite O2, O1, insert_insert_eq. now rewrite !dom_insert_L. }
  repeat split; try assumption; [eauto 6|].
  rewrite <- !size_dom. now rewrite D.
Qed.

(** C8.  [env_check] shows the access key and the secret as booleans
    only: two configurations that agree on which credentials are set give
    the same credential fields, and the same whole response when they also
    agree on region and bucket. *)
Theorem env_check_presence_only env1 env2 :
  truthy (AWS_KEY env1) = truthy (AWS_KEY env2) ->
  truthy (AWS_SECRET env1) = truthy (AWS_SECRET env2) ->
  field "AWS_ACCESS_KEY set" (env_check env1)
  = field "AWS_ACCESS_KEY set" (env_check env2)
  /\ field "AWS_SECRET_KEY set" (env_check env1)
     = field "AWS_SECRET_KEY set" (env_check env2)
  /\ (exists b, field "AWS_ACCESS_KEY set" (env_check env1) = Some (VBool b))
  /\ (exists b, field "AWS_SECRET_KEY set" (env_check env1) = Some (VBool b))
  /\ (AWS_REGION env1 = AWS_REGION env2 -> AWS_BUCKET env1 = AWS_BUCKET env2 ->
      env_check env1 = env_check env2).
Proof.
  intros K S. unfold env_check. simpl. rewrite K, S.
  repeat split; eauto. now intros -> ->.
Qed.

Lemma sample_key :
  safe_key_from_url sample_env "https://example.com/page"
  = Return "qr_codes/example.com_page_bf705e83e05bb973.png"%string.
Proof. vm_compute. reflexivity. Qed.

Lemma generate_twice_same_key_witness :
  exists resp1 w1 resp2 w2 key,
    generate_qr sample_env None (Some "https://example.com/page"%string)
      empty_world = (Return resp1, w1)
    /\ generate_qr sample_env None (Some "https://example.com/page"%string)
         w1 = (Return resp2, w2)
    /\ field "key" resp1 = Some (VStr key)
    /\ field "key" resp2 = Some (VStr key)
    /\ size (objects w2) = size (objects w1).
Proof.
  pose proof (generate_qr_succeeds sample_env None
                (Some "https://example.com/page"%string) empty_world
                _ "qr-bucket" _ [] eq_refl eq_refl eq_refl eq_refl sample_key
                eq_refl eq_refl eq_refl) as R1.
  pose proof (generate_qr_succeeds sample_env None
                (Some "https://example.com/page"%string)
                (generate_qr sample_env None
                   (Some "https://example.com/page"%string) empty_world).2
                _ "qr-bucket" _ [] eq_refl eq_refl eq_refl eq_refl sample_key
                eq_refl eq_refl eq_refl) as R2.
  rewrite R1 in R2. cbn [snd] in R2.
  destruct (generate_twice_same_key _ _ _ _ _ _ _ _ R1 R2) as (key & H).
  eexists _, _, _, _, key. split; [exact R1|]. split; [exact R2|]. tauto.
Defined.

(** C4 fails on the code.  With a bucket configured, the URL ["http://["]
    passes the scheme gate and the key deriver raises [ValueError] outside
    the [try]: the exception leaves the handler as it is, not as a 500
    [HTTPException]. *)
Theorem uncaught_error_at_failing_input :
  generate_qr sample_env None (Some "http://["%string) empty_world
  = (Raise (ValueError "Invalid IPv6 URL"), empty_world)
  /\ forall detail,
      fst (generate_qr sample_env None (Some "http://["%string) empty_world)
      <> Raise (HTTPException 500 detail).
Proof.
  assert (E : generate_qr sample_env None (Some "http://["%string) empty_world
              = (Raise (ValueError "Invalid IPv6 URL"), empty_world)).
  { apply (generate_qr_key_error sample_env None _ _ "http://[" "qr-bucket");
      [reflexivity | reflexivity | reflexivity | reflexivity
      | vm_compute; reflexivity]. }
  split; [exact E|]. intros detail. rewrite E. discriminate.
Qed.

Lemma key_has_one_slash_witness :
  Str.count "/" "qr_codes/example.com_page_bf705e83e05bb973.png" = 1%nat.
Proof.
  exact (proj1 (key_has_one_slash sample_env "https://example.com/page" _
                  sample_key)).
Defined.

Lemma falsy_body_url_falls_back_witness :
  generate_qr sample_env (Some {| QRRequest.url := Some ""%string |})
    (Some "https://b.com"%string) empty_world
  = (Return (qr_response sample_env "qr-bucket"
               "qr_codes/b.com_817eef7c0ce3d5b2.png" "https://b.com"),
     served_world "qr-bucket" "qr_codes/b.com_817eef7c0ce3d5b2.png" []
       empty_world)
  /\ generate_qr sample_env (Some {| QRRequest.url := None |})
       (Some "https://b.com"%string) empty_world
     = (Return (qr_response sample_env "qr-bucket"
                  "qr_codes/b.com_817eef7c0ce3d5b2.png" "https://b.com"),
        served_world "qr-bucket" "qr_codes/b.com_817eef7c0ce3d5b2.png" []
          empty_world)
  /\ generate_qr sample_env (Some {| QRRequest.url := Some "https://a.com"%string |})
       (Some "https://b.com"%string) empty_world
     = (Return (qr_response sample_env "qr-bucket"
                  "qr_codes/a.com_e5c1f0f86ea666d8.png" "https://a.com"),
        served_world "qr-bucket" "qr_codes/a.com_e5c1f0f86ea666d8.png" []
          empty_world).
Proof.
  split; [|split].
  - destruct (falsy_body_url_falls_back sample_env
                {| QRRequest.url := Some ""%string |}
                (Some "https://b.com"%string) empty_world) as [H _].
    destruct (H eq_refl) as (_ & _ & _ & S).
    exact (S "https://b.com"%string _ _ _ eq_refl sample_serves_b).
  - destruct (falsy_body_url_falls_back sample_env
                {| QRRequest.url := None |}
                (Some "https://b.com"%string) empty_world) as [H _].
    destruct (H eq_refl) as (_ & _ & _ & S).
    exact (S "https://b.com"%string _ _ _ eq_refl sample_serves_b).
  - destruct (falsy_body_url_falls_back sample_env
                {| QRRequest.url := Some "https://a.com"%string |}
                (Some "https://b.com"%string) empty_world) as [_ H].
    destruct (H "https://a.com"%string eq_refl ltac:(discriminate))
      as (_ & _ & S).
    exact (S _ _ _ sample_serves_a).
Defined.

Lemma env_check_presence_only_witness :
  env_check (with_environ {[ "AWS_ACCESS_KEY" := "AKIAFIRST";
                             "AWS_SECRET_KEY" := "first-secret" ]}%string)
  = env_check (with_environ {[ "AWS_ACCESS_KEY_ID" := "AKIASECOND";
                               "AWS_SECRET_ACCESS_KEY" := "second-secret" ]}%string).
Proof.
  apply env_check_presence_only; vm_compute; reflexivity.
Defined.

(* ===================================================================== *)
(** * The handlers: outcomes, effects and failures *)
(* ===================================================================== *)

Section past_the_gates.
Variables (env : Env) (req : option QRRequest.t) (q : option string).
Variables (u bucket key : string) (body : bytes).
Hypothesis Hurl : final_url req q = Some u.
Hypothesis Hscheme : valid_scheme u = true.
Hypothesis Hbucket : AWS_BUCKET env = Some bucket.
Hypothesis Htruthy : Str.truthy bucket = true.
Hypothesis Hkey : safe_key_from_url env u = Return key.
Hypothesis Hpng : qr_png env u = Return body.

(** The handler is the guarded storage part. *)
Lemma generate_qr_storage_part w :
  generate_qr env req q w
  = try_except
      (do_ s3.put_object env (qr_put_kwargs bucket key body);
       do presigned_url <-
         s3.generate_presigned_url env "get_object"
           [("Params", VDict [("Bucket", VStr bucket); ("Key", VStr key)]);
            ("ExpiresIn", VInt 900)]%string;
       ret (VDict [("ok", VBool true);
                   ("bucket", VStr bucket);
                   ("key", VStr key);
                   ("public_url",
                     VStr (region_aware_public_url bucket key (AWS_REGION env)));
                   ("presigned_url", VStr presigned_url);
                   ("source_url", VStr u)]%string))
      (fun e =>
         match e with
         | ClientError _ =>
             raise (HTTPException 500 ("S3 error: " +:+ str_exn e))
         | _ => raise (HTTPException 500 (str_exn e))
         end) w.
Proof.
  unfold generate_qr. rewrite Hurl, (valid_scheme_truthy _ Hscheme).
  unfold valid_scheme in Hscheme. rewrite Hscheme, Hbucket, Htruthy.
  cbn [negb]. unfold bind at 1 2, lift. now rewrite Hkey, Hpng.
Qed.
End past_the_gates.

Lemma stored_lookup bucket key body w :
  objects (s3.stored (qr_put_kwargs bucket key body) w) !! (bucket, key)
  = Some (qr_object body).
Proof. unfold s3.stored. simpl. apply lookup_insert_eq. Qed.

(** X1.  Past its gates, with a key derived, an image encoded and a storage
    client that does not raise, [generate_qr] returns [ok] with the bucket,
    the key, the public URL of that key and the source URL; it has made
    exactly two calls, the write and then the signing of the same bucket
    and key for 900 seconds, and reading the bucket at the key gives the
    encoded image as [image/png] without ACL. *)
Theorem generate_qr_round_trip env req q w u bucket key body :
  final_url req q = Some u -> valid_scheme u = true ->
  AWS_BUCKET env = Some bucket -> Str.truthy bucket = true ->
  safe_key_from_url env u = Return key ->
  qr_png env u = Return body ->
  s3_raises env (PutObject (qr_put_kwargs bucket key body)) w = None ->
  s3_raises env (qr_sign_call bucket key)
    (s3.stored (qr_put_kwargs bucket key body)
       (s3.logged (PutObject (qr_put_kwargs bucket key body)) w)) = None ->
  exists resp w',
    generate_qr env req q w = (Return resp, w')
    /\ field "ok" resp = Some (VBool true)
    /\ field "bucket" resp = Some (VStr bucket)
    /\ field "key" resp = Some (VStr key)
    /\ field "source_url" resp = Some (VStr u)
    /\ field "public_url" resp
       = Some (VStr (region_aware_public_url bucket key (AWS_REGION env)))
    /\ objects w' !! (bucket, key) = Some (qr_object body)
    /\ trace w' = trace w ++ [PutObject (qr_put_kwargs bucket key body);
                              qr_sign_call bucket key].
Proof.
  intros F V B T K Q P S.
  rewrite (generate_qr_succeeds env req q w u bucket key body F V B T K Q P S).
  eexists _, _. split; [reflexivity|]. repeat split.
  - apply (stored_lookup bucket key body).
  - simpl. now rewrite <- app_assoc.
Qed.

Lemma generate_qr_round_trip_witness :
  exists resp w',
    generate_qr sample_env None (Some "https://example.com/page"%string)
      empty_world = (Return resp, w')
    /\ field "key" resp
       = Some (VStr "qr_codes/example.com_page_bf705e83e05bb973.png")
    /\ objects w' !! ("qr-bucket", "qr_codes/example.com_page_bf705e83e05bb973.png")%string
       = Some (qr_object []).
Proof.
  destruct (generate_qr_round_trip sample_env None
              (Some "https://example.com/page"%string) empty_world
              _ "qr-bucket" _ [] eq_refl eq_refl eq_refl eq_refl sample_key
              eq_refl eq_refl eq_refl) as (resp & w' & R & _ & _ & K & _ & _ & O & _).
  exists resp, w'. auto.
Defined.

(** X2.  When [put_object] raises, [generate_qr] answers 500: with
    ["S3 error: " + message] for a [ClientError], with the bare message for
    any other exception.  Nothing is stored and no URL is signed. *)
Theorem put_failure_reported env req q w u bucket key body e :
  final_url req q = Some u -> valid_scheme u = true ->
  AWS_BUCKET env = Some bucket -> Str.truthy bucket = true ->
  safe_key_from_url env u = Return key ->
  qr_png env u = Return body ->
  s3_raises env (PutObject (qr_put_kwargs bucket key body)) w = Some e ->
  exists detail w',
    generate_qr env req q w = (Raise (HTTPException 500 detail), w')
    /\ objects w' = objects w
    /\ trace w' = trace w ++ [PutObject (qr_put_kwargs bucket key body)]
    /\ (forall msg, e = ClientError msg -> detail = "S3 error: " +:+ msg)
    /\ (forall cls msg, e = Exception cls msg -> detail = msg).
Proof.
  intros F V B T K Q P.
  rewrite (generate_qr_storage_part env req q u bucket key body F V B T K Q).
  unfold try_except, bind, s3.put_object, s3.call. rewrite P.
  destruct e as [st d|msg|cls msg]; eexists _, _;
    (split; [reflexivity|]); repeat split; intros; simplify_eq; reflexivity.
Qed.

Lemma put_failure_reported_witness :
  exists w',
    generate_qr read_only_env None (Some "https://example.com/page"%string)
      empty_world
    = (Raise (HTTPException 500 "S3 error: AccessDenied"), w')
    /\ objects w' = ∅.
Proof.
  destruct (put_failure_reported read_only_env None
              (Some "https://example.com/page"%string) empty_world
              _ "qr-bucket" _ [] (ClientError "AccessDenied")
              eq_refl eq_refl eq_refl eq_refl sample_key eq_refl eq_refl)
    as (d & w' & R & O & _ & D & _).
  exists w'. rewrite (D _ eq_refl) in R. auto.
Defined.

(** X3.  When the write succeeds and the signing raises, [generate_qr]
    answers 500, and the object is in the bucket all the same: the write is
    not undone. *)
Theorem sign_failure_after_write env req q w u bucket key body e :
  final_url req q = Some u -> valid_scheme u = true ->
  AWS_BUCKET env = Some bucket -> Str.truthy bucket = true ->
  safe_key_from_url env u = Return key ->
  qr_png env u = Return body ->
  s3_raises env (PutObject (qr_put_kwargs bucket key body)) w = None ->
  s3_raises env (qr_sign_call bucket key)
    (s3.stored (qr_put_kwargs bucket key body)
       (s3.logged (PutObject (qr_put_kwargs bucket key body)) w)) = Some e ->
  exists detail w',
    generate_qr env req q w = (Raise (HTTPException 500 detail), w')
    /\ objects w' !! (bucket, key) = Some (qr_object body)
    /\ trace w' = trace w ++ [PutObject (qr_put_kwargs bucket key body);
                              qr_sign_call bucket key]
    /\ (forall msg, e = ClientError msg -> detail = "S3 error: " +:+ msg)
    /\ (forall cls msg, e = Exception cls msg -> detail = msg).
Proof.
  intros F V B T K Q P S.
  rewrite (generate_qr_storage_part env req q u bucket key body F V B T K Q).
  unfold try_except, bind, s3.put_object, s3.generate_presigned_url, s3.call.
  rewrite P. fold (qr_sign_call bucket key). rewrite S.
  assert (O : objects (s3.logged (qr_sign_call bucket key)
                (s3.stored (qr_put_kwargs bucket key body)
                   (s3.logged (PutObject (qr_put_kwargs bucket key body)) w)))
              !! (bucket, key) = Some (qr_object body))
    by apply (stored_lookup bucket key body).
  destruct e as [st d|msg|cls msg]; eexists _, _;
    (split; [reflexivity|]); (split; [exact O|]);
    (split; [simpl; now rewrite <- app_assoc|]);
    split; intros; simplify_eq; reflexivity.
Qed.

Lemma sign_failure_after_write_witness :
  exists w',
    generate_qr unsigned_env None (Some "https://example.com/page"%string)
      empty_world
    = (Raise (HTTPException 500 "Unable to locate credentials"), w')
    /\ objects w' !! ("qr-bucket", "qr_codes/example.com_page_bf705e83e05bb973.png")%string
       = Some (qr_object []).
Proof.
  destruct (sign_failure_after_write unsigned_env None
              (Some "https://example.com/page"%string) empty_world
              _ "qr-bucket" _ [] (Exception "NoCredentialsError" "Unable to locate credentials")
              eq_refl eq_refl eq_refl eq_refl sample_key eq_refl eq_refl eq_refl)
    as (d & w' & R & O & _ & _ & D).
  exists w'. rewrite (D _ _ eq_refl) in R. auto.
Defined.

Ltac run_handler :=
  unfold generate_qr, s3_diagnose, bind, lift, try_except, raise, ret,
    s3.head_bucket, s3.put_object, s3.generate_presigned_url, s3.call.

Lemma generate_qr_raises_inv env req q w e w' :
  generate_qr env req q w = (Raise e, w') ->
  (exists detail, e = HTTPException 400 detail /\ w' = w)
  \/ (exists detail, e = HTTPException 500 detail)
  \/ (exists u, final_url req q = Some u /\ w' = w
                /\ (safe_key_from_url env u = Raise e \/ qr_png env u = Raise e)).
Proof.
  run_handler. intros H.
  repeat (case_match; simplify_eq/=); eauto 8.
Qed.

(** X4.  Every exception that leaves [generate_qr] is a 400 raised before
    any effect, a 500, or the very exception the key deriver or the encoder
    raised on the effective URL, again before any effect.  An exception of
    the storage client never leaves the handler as it is. *)
Theorem generate_qr_error_taxonomy env req q w e w' :
  generate_qr env req q w = (Raise e, w') ->
  (exists detail, e = HTTPException 400 detail /\ w' = w)
  \/ (exists detail, e = HTTPException 500 detail)
  \/ (exists u, final_url req q = Some u /\ w' = w
                /\ (safe_key_from_url env u = Raise e \/ qr_png env u = Raise e)).
Proof.
  run_handler. intros H.
  repeat (case_match; simplify_eq/=); eauto 8.
Qed.

Lemma generate_qr_error_taxonomy_witness :
  (exists detail, ValueError "Invalid IPv6 URL" = HTTPException 400 detail
                  /\ empty_world = empty_world)
  \/ (exists detail, ValueError "Invalid IPv6 URL" = HTTPException 500 detail)
  \/ (exists u, final_url None (Some "http://["%string) = Some u
                /\ empty_world = empty_world
                /\ (safe_key_from_url sample_env u = Raise (ValueError "Invalid IPv6 URL")
                    \/ qr_png sample_env u = Raise (ValueError "Invalid IPv6 URL"))).
Proof.
  apply (generate_qr_error_taxonomy sample_env None (Some "http://["%string)
           empty_world).
  apply (generate_qr_key_error sample_env None _ _ "http://[" "qr-bucket");
    [reflexivity | reflexivity | reflexivity | reflexivity
    | vm_compute; reflexivity].
Defined.

(** X5.  Without a bucket name (unset or empty) both [generate_qr], on a
    valid URL, and [s3_diagnose] answer 500 "AWS_BUCKET_NAME is not set"
    and make no call. *)
Theorem missing_bucket_rejected env req q w u :
  final_url req q = Some u -> valid_scheme u = true ->
  truthy (AWS_BUCKET env) = false ->
  generate_qr env req q w
  = (Raise (HTTPException 500 "AWS_BUCKET_NAME is not set"), w)
  /\ s3_diagnose env w
     = (Raise (HTTPException 500 "AWS_BUCKET_NAME is not set"), w).
Proof.
  intros F V B. unfold generate_qr, s3_diagnose.
  rewrite F, (valid_scheme_truthy _ V). unfold valid_scheme in V. rewrite V.
  destruct (AWS_BUCKET env) as [b|]; simpl in *; [rewrite B|]; now split.
Qed.

Lemma missing_bucket_rejected_witness :
  generate_qr unconfigured_env None (Some "https://example.com/page"%string)
    empty_world
  = (Raise (HTTPException 500 "AWS_BUCKET_NAME is not set"), empty_world).
Proof.
  exact (proj1 (missing_bucket_rejected unconfigured_env None
                  (Some "https://example.com/page"%string) empty_world
                  "https://example.com/page" eq_refl eq_refl eq_refl)).
Defined.

(** X6.  One run of [generate_qr] either leaves the world as it was, or has
    passed every gate and has made one write attempt to the derived key of
    the configured bucket, followed by at most the signing call.  The only
    object it can change is the one at that key; there is never a second
    write. *)
Theorem generate_qr_footprint env req q w :
  let w' := (generate_qr env req q w).2 in
  (w' = w
   \/ exists u bucket key body,
       final_url req q = Some u /\ valid_scheme u = true
       /\ AWS_BUCKET env = Some bucket /\ Str.truthy bucket = true
       /\ safe_key_from_url env u = Return key /\ qr_png env u = Return body
       /\ ((objects w' = objects w
            /\ trace w' = trace w ++ [PutObject (qr_put_kwargs bucket key body)])
           \/ (objects w' = <[(bucket, key) := qr_object body]> (objects w)
               /\ trace w' = trace w ++ [PutObject (qr_put_kwargs bucket key body);
                                         qr_sign_call bucket key]))).
Proof.
  run_handler. unfold valid_scheme.
  repeat (case_match; simplify_eq/=); auto;
    right; eexists _, _, _, _;
    repeat (split; [first [eassumption | reflexivity
                          | apply negb_false_iff; eassumption]|]);
    (left; split; reflexivity) || (right; split; [reflexivity|]);
    now rewrite <- app_assoc.
Qed.

(** X7.  One run of [s3_diagnose] makes at most three calls, in the order
    head, write, sign, and can change no object but
    [healthchecks/diagnostic.txt] of the configured bucket. *)
Theorem s3_diagnose_footprint env w :
  let w' := (s3_diagnose env w).2 in
  w' = w
  \/ exists bucket,
      AWS_BUCKET env = Some bucket
      /\ ((objects w' = objects w
           /\ (trace w' = trace w ++ [diag_head_call bucket]
               \/ trace w' = trace w ++ [diag_head_call bucket;
                                         PutObject (diag_put_kwargs bucket)]))
          \/ (objects w' = <[(bucket, diag_key) := diag_object]> (objects w)
              /\ trace w' = trace w ++ [diag_head_call bucket;
                                        PutObject (diag_put_kwargs bucket);
                                        diag_sign_call bucket])).
Proof.
  run_handler. repeat (case_match; simplify_eq/=); auto;
    right; eexists; (split; [reflexivity|]);
    rewrite <- ?app_assoc; simpl; auto.
Qed.

(** X8.  With a bucket configured and a storage client that does not
    raise, [s3_diagnose] returns [ok] with the configured region after the
    three calls head, write, sign (300 seconds), and the diagnostic object
    can be read back: ["diag-ok\n"] as [text/plain], without ACL. *)
Theorem s3_diagnose_round_trip env w bucket :
  AWS_BUCKET env = Some bucket -> Str.truthy bucket = true ->
  (forall c w0, s3_raises env c w0 = None) ->
  exists resp w',
    s3_diagnose env w = (Return resp, w')
    /\ field "ok" resp = Some (VBool true)
    /\ field "configured_region" resp = Some (VStr (AWS_REGION env))
    /\ objects w' !! (bucket, diag_key) = Some diag_object
    /\ trace w' = trace w ++ [diag_head_call bucket;
                              PutObject (diag_put_kwargs bucket);
                              diag_sign_call bucket].
Proof.
  intros B T S. unfold s3_diagnose. rewrite B, T. cbn [negb].
  run_handler. rewrite !S.
  eexists _, _. split; [reflexivity|]. repeat split.
  - unfold s3.stored. simpl. apply lookup_insert_eq.
  - simpl. now rewrite <- !app_assoc.
Qed.

Lemma s3_diagnose_round_trip_witness :
  exists resp w',
    s3_diagnose sample_env empty_world = (Return resp, w')
    /\ objects w' !! ("qr-bucket", "healthchecks/diagnostic.txt")%string
       = Some diag_object.
Proof.
  destruct (s3_diagnose_round_trip sample_env empty_world "qr-bucket"
              eq_refl eq_refl (fun _ _ => eq_refl))
    as (resp & w' & R & _ & _ & O & _).
  exists resp, w'. auto.
Defined.

(** X9.  When [head_bucket] raises, [s3_diagnose] writes nothing: a
    [ClientError] becomes a 500 "S3 diagnose error: ...", any other
    exception leaves the handler unchanged. *)
Theorem s3_diagnose_head_failure env w bucket e :
  AWS_BUCKET env = Some bucket -> Str.truthy bucket = true ->
  s3_raises env (diag_head_call bucket) w = Some e ->
  exists e' w',
    s3_diagnose env w = (Raise e', w')
    /\ objects w' = objects w
    /\ trace w' = trace w ++ [diag_head_call bucket]
    /\ (forall msg, e = ClientError msg ->
                    e' = HTTPException 500 ("S3 diagnose error: " +:+ msg))
    /\ (forall cls msg, e = Exception cls msg -> e' = e).
Proof.
  intros B T S. unfold s3_diagnose. rewrite B, T. cbn [negb].
  run_handler. fold (diag_head_call bucket). rewrite S.
  destruct e as [st d|msg|cls msg]; eexists _, _;
    (split; [reflexivity|]); repeat split; intros; simplify_eq; reflexivity.
Qed.

Lemma s3_diagnose_head_failure_witness :
  exists w',
    s3_diagnose unreachable_env empty_world
    = (Raise (HTTPException 500 "S3 diagnose error: Not Found"), w')
    /\ objects w' = ∅.
Proof.
  destruct (s3_diagnose_head_failure unreachable_env empty_world "qr-bucket"
              (ClientError "Not Found") eq_refl eq_refl eq_refl)
    as (e' & w' & R & O & _ & D & _).
  exists w'. rewrite (D _ eq_refl) in R. auto.
Defined.

(** X10.  An exception that leaves [s3_diagnose] is a 500, or an exception
    of the storage client that is not a [ClientError]: unlike
    [generate_qr], the diagnostic handler converts client errors only. *)
Theorem s3_diagnose_error_taxonomy env w e w' :
  s3_diagnose env w = (Raise e, w') ->
  (exists detail, e = HTTPException 500 detail)
  \/ ((forall msg, e <> ClientError msg)
      /\ exists c w0, s3_raises env c w0 = Some e).
Proof.
  run_handler. intros H.
  repeat (case_match; simplify_eq/=); eauto;
    right; (split; [discriminate | eauto]).
Qed.

Lemma s3_diagnose_error_taxonomy_witness :
  (exists detail,
      HTTPException 500 "S3 diagnose error: Not Found" = HTTPException 500 detail)
  \/ ((forall msg, HTTPException 500 "S3 diagnose error: Not Found" <> ClientError msg)
      /\ exists c w0,
          s3_raises unreachable_env c w0
          = Some (HTTPException 500 "S3 diagnose error: Not Found")).
Proof.
  apply (s3_diagnose_error_taxonomy unreachable_env empty_world _
           (s3.logged (diag_head_call "qr-bucket") empty_world)).
  reflexivity.
Defined.

Section credentials.
Variable env : Env.

Lemma truthy_py_or a b : truthy (py_or a b) = truthy a || truthy b.
Proof. unfold py_or. now destruct (truthy a) eqn:E; rewrite ?E. Qed.
End credentials.

(** X11.  [env_check] reports a credential as set exactly when one of its
    two variable names holds a non-empty value.  [AWS_ACCESS_KEY] wins when
    it is non-empty; an empty or missing one gives way to
    [AWS_ACCESS_KEY_ID]. *)
Theorem credentials_either_name env :
  (field "AWS_ACCESS_KEY set" (env_check env) = Some (VBool true)
   <-> truthy (environ env !! "AWS_ACCESS_KEY"%string) = true
       \/ truthy (environ env !! "AWS_ACCESS_KEY_ID"%string) = true)
  /\ (field "AWS_SECRET_KEY set" (env_check env) = Some (VBool true)
      <-> truthy (environ env !! "AWS_SECRET_KEY"%string) = true
          \/ truthy (environ env !! "AWS_SECRET_ACCESS_KEY"%string) = true)
  /\ (truthy (environ env !! "AWS_ACCESS_KEY"%string) = true ->
      AWS_KEY env = environ env !! "AWS_ACCESS_KEY"%string)
  /\ (truthy (environ env !! "AWS_ACCESS_KEY"%string) = false ->
      AWS_KEY env = environ env !! "AWS_ACCESS_KEY_ID"%string).
Proof.
  unfold env_check, AWS_KEY, AWS_SECRET, getenv. simpl.
  rewrite !truthy_py_or. repeat split.
  - intros [= H]. now apply orb_true_iff.
  - intros H%orb_true_iff. now rewrite H.
  - intros [= H]. now apply orb_true_iff.
  - intros H%orb_true_iff. now rewrite H.
  - unfold py_or. now intros ->.
  - unfold py_or. now intros ->.
Qed.

Lemma credentials_either_name_witness :
  AWS_KEY (with_environ {[ "AWS_ACCESS_KEY" := ""; "AWS_ACCESS_KEY_ID" := "AKIA" ]}%string)
  = Some "AKIA"%string.
Proof.
  destruct (credentials_either_name
              (with_environ {[ "AWS_ACCESS_KEY" := ""; "AWS_ACCESS_KEY_ID" := "AKIA" ]}%string))
    as (_ & _ & _ & H).
  rewrite H; vm_compute; reflexivity.
Defined.

Lemma prefix_append s t : String.prefix s (s +:+ t) = true.
Proof.
  induction s as [|x s IH]; [now destruct t|]. rewrite append_cons. simpl.
  now destruct (ascii_dec x x).
Qed.

Lemma prefix_append_same s t u :
  String.prefix (s +:+ t) (s +:+ u) = String.prefix t u.
Proof.
  induction s as [|x s IH]; [reflexivity|]. rewrite !append_cons. simpl.
  now destruct (ascii_dec x x).
Qed.

(** X12.  For one bucket and region, different keys have different public
    URLs, and every public URL starts with ["https://<bucket>.s3."]. *)
Theorem public_url_names_object bucket region key1 key2 :
  key1 <> key2 ->
  region_aware_public_url bucket key1 region
  <> region_aware_public_url bucket key2 region
  /\ Str.startswith (region_aware_public_url bucket key1 region)
       ("https://" +:+ bucket +:+ ".s3.") = true.
Proof.
  intros N. unfold region_aware_public_url, Str.startswith.
  destruct (String.eqb region "us-east-1"); split.
  - intros H. apply N. repeat apply String.app_inj in H. exact H.
  - change ".s3.amazonaws.com/"%string with (".s3." +:+ "amazonaws.com/").
    rewrite !append_assoc, !prefix_append_same. apply prefix_append.
  - intros H. apply N. repeat apply String.app_inj in H. exact H.
  - rewrite !prefix_append_same. apply prefix_append.
Qed.

Lemma public_url_names_object_witness :
  region_aware_public_url "qr-bucket" "qr_codes/a.png" "eu-west-1"
  <> region_aware_public_url "qr-bucket" "qr_codes/b.png" "eu-west-1".
Proof.
  apply (public_url_names_object "qr-bucket" "eu-west-1"). discriminate.
Defined.

(* ===================================================================== *)
(** * The key deriver: dependence on the URL, totality *)
(* ===================================================================== *)

Lemma urlsplit_env_independent env1 env2 url r1 r2 :
  Urllib.urlsplit env1 url = Return r1 ->
  Urllib.urlsplit env2 url = Return r2 ->
  r1 = r2.
Proof.
  unfold Urllib.urlsplit.
  generalize (fold_left (fun u b => Str.replace b "" u)
                Urllib.UNSAFE_URL_BYTES_TO_REMOVE
                (Str.lstrip Urllib.WHATWG_C0_CONTROL_OR_SPACE url)).
  intros s. cbv zeta.
  destruct (match Str.find ":" s with Some 0%nat => _ | _ => _ end) as [sch rest].
  destruct (String.eqb (Str.take 2 rest) "//").
  - destruct (Urllib.splitnetloc rest 2) as [nl tl].
    generalize (Str.contains "[" nl), (Str.contains "]" nl). intros o c.
    destruct ((o && negb c) || (c && negb o)); [discriminate|].
    destruct (if Str.contains "#" tl then _ else _) as [a b].
    destruct (if Str.contains "?" a then _ else _) as [a' b'].
    destruct (o && c);
      repeat (case_match; try discriminate); congruence.
  - destruct (if Str.contains "#" rest then _ else _) as [a b].
    destruct (if Str.contains "?" a then _ else _) as [a' b'].
    repeat (case_match; try discriminate); congruence.
Qed.

Lemma urlparse_env_independent env1 env2 url r1 r2 :
  Urllib.urlparse env1 url = Return r1 ->
  Urllib.urlparse env2 url = Return r2 ->
  r1 = r2.
Proof.
  unfold Urllib.urlparse.
  destruct (Urllib.urlsplit env1 url) as [s1|] eqn:E1; [|discriminate].
  destruct (Urllib.urlsplit env2 url) as [s2|] eqn:E2; [|discriminate].
  rewrite (urlsplit_env_independent _ _ _ _ _ E1 E2).
  destruct (_ && _); [destruct (Urllib.splitparams _)|]; congruence.
Qed.

(** X13.  The key is a function of the URL alone: two deployments that both
    derive a key for a URL derive the same one, whatever their bucket,
    region, credentials and library tables. *)
Theorem key_depends_on_url_only env1 env2 url key1 key2 :
  safe_key_from_url env1 url = Return key1 ->
  safe_key_from_url env2 url = Return key2 ->
  key1 = key2.
Proof.
  rewrite !safe_key_from_url_unfold.
  destruct (Urllib.urlparse env1 url) as [p1|] eqn:E1; [|discriminate].
  destruct (Urllib.urlparse env2 url) as [p2|] eqn:E2; [|discriminate].
  rewrite (urlparse_env_independent _ _ _ _ _ E1 E2).
  destruct (str_encode url); congruence.
Qed.

Lemma key_depends_on_url_only_witness :
  safe_key_from_url
    (with_environ {[ "AWS_BUCKET_NAME" := "other-bucket";
                     "AWS_REGION" := "eu-west-1" ]}%string)
    "https://example.com/page"
  = Return "qr_codes/example.com_page_bf705e83e05bb973.png"%string.
Proof.
  destruct (safe_key_from_url
              (with_environ {[ "AWS_BUCKET_NAME" := "other-bucket";
                               "AWS_REGION" := "eu-west-1" ]}%string)
              "https://example.com/page") as [k|e] eqn:K.
  - f_equal.
    exact (key_depends_on_url_only _ sample_env _ _ _ K sample_key).
  - exfalso. revert K. vm_compute. discriminate.
Defined.

Section sub_facts.
Implicit Types (s t : string) (c x : ascii).

Lemma char_in_cons c x s :
  Str.char_in c (String x s) = Ascii.eqb c x || Str.char_in c s.
Proof. reflexivity. Qed.

Lemma sub_refl s : sub s s.
Proof. now intros c. Qed.

Lemma sub_trans s t u : sub s t -> sub t u -> sub s u.
Proof. intros H1 H2 c H. auto. Qed.

Lemma sub_tail x s : sub s (String x s).
Proof. intros c H. rewrite char_in_cons, H. apply orb_true_r. Qed.

Lemma sub_cons x s t : sub s t -> sub (String x s) (String x t).
Proof.
  intros H c. rewrite !char_in_cons. intros [E|E]%orb_true_iff.
  - now rewrite E.
  - rewrite (H c E). apply orb_true_r.
Qed.

Lemma sub_nil t : sub "" t.
Proof. intros c. discriminate. Qed.

Lemma lstrip_sub chars s : sub (Str.lstrip chars s) s.
Proof.
  induction s as [|x s IH]; [apply sub_refl|]. simpl.
  destruct (Str.char_in x chars); [|apply sub_refl].
  eapply sub_trans; [exact IH | apply sub_tail].
Qed.

Lemma drop_sub n s : sub (Str.drop n s) s.
Proof.
  revert s. induction n as [|n IH]; intros [|x s]; simpl;
    try apply sub_refl.
  eapply sub_trans; [apply IH | apply sub_tail].
Qed.

Lemma take_sub n s : sub (Str.take n s) s.
Proof.
  revert s. induction n as [|n IH]; intros [|x s]; simpl;
    try apply sub_nil. apply sub_cons, IH.
Qed.

(** Deleting every occurrence of a character. *)
Lemma delete_sub x s : sub (Str.replace (String x "") "" s) s.
Proof.
  unfold Str.replace. induction s as [|y s IH]; [apply sub_refl|].
  cbn [Str.replace_from]. rewrite prefix_single.
  cbn [String.length Nat.pred]. destruct (Ascii.eqb y x).
  - rewrite append_nil_l. eapply sub_trans; [exact IH | apply sub_tail].
  - apply sub_cons, IH.
Qed.

Lemma sub_contains c s t : sub s t -> Str.contains c t = false -> Str.contains c s = false.
Proof.
  unfold Str.contains. intros H F. destruct (Str.char_in c s) eqn:E; [|reflexivity].
  now rewrite (H c E) in F.
Qed.

Lemma isascii_char s :
  Str.isascii s = true <->
  forall c, Str.char_in c s = true -> (nat_of_ascii c <? 128)%nat = true.
Proof.
  unfold Str.isascii, Str.char_in. induction s as [|x s IH]; simpl.
  - split; [discriminate | reflexivity].
  - rewrite andb_true_iff, IH. split.
    + intros [X H] c [E|E]%orb_true_iff; [|now apply H].
      apply Ascii.eqb_eq in E. now subst.
    + intros H. split.
      * apply H. now rewrite Ascii.eqb_refl.
      * intros c E. apply H. rewrite E. apply orb_true_r.
Qed.

Lemma sub_isascii s t : sub s t -> Str.isascii t = true -> Str.isascii s = true.
Proof. rewrite !isascii_char. intros H A c E. auto. Qed.
End sub_facts.

Lemma splitnetloc_sub url start :
  sub (Urllib.splitnetloc url start).1 url.
Proof.
  unfold Urllib.splitnetloc. simpl.
  eapply sub_trans; [apply take_sub | apply drop_sub].
Qed.

Lemma urlsplit_plain env url :
  plain url -> exists r, Urllib.urlsplit env url = Return r.
Proof.
  intros (O & C & A). unfold Urllib.urlsplit.
  assert (S : sub (fold_left (fun u b => Str.replace b "" u)
                     Urllib.UNSAFE_URL_BYTES_TO_REMOVE
                     (Str.lstrip Urllib.WHATWG_C0_CONTROL_OR_SPACE url)) url).
  { cbn [fold_left Urllib.UNSAFE_URL_BYTES_TO_REMOVE map].
    repeat (eapply sub_trans; [apply delete_sub|]). apply lstrip_sub. }
  revert S.
  generalize (fold_left (fun u b => Str.replace b "" u)
                Urllib.UNSAFE_URL_BYTES_TO_REMOVE
                (Str.lstrip Urllib.WHATWG_C0_CONTROL_OR_SPACE url)).
  intros s S. cbv zeta.
  destruct (match Str.find ":" s with Some 0%nat => _ | _ => _ end)
    as [sch rest] eqn:E.
  assert (R : sub rest url).
  { eapply sub_trans; [|exact S].
    repeat (case_match; simplify_eq); try apply sub_refl; apply drop_sub. }
  clear E.
  destruct (String.eqb (Str.take 2 rest) "//").
  - pose proof (splitnetloc_sub rest 2) as N.
    destruct (Urllib.splitnetloc rest 2) as [nl tl]. simpl in N.
    pose proof (sub_trans _ _ _ N R) as N'.
    rewrite (sub_contains _ _ _ N' O), (sub_contains _ _ _ N' C). simpl.
    destruct (if Str.contains "#" tl then _ else _) as [a b].
    destruct (if Str.contains "?" a then _ else _) as [a' b'].
    unfold Urllib.checknetloc. rewrite (sub_isascii _ _ N' A), orb_true_r.
    eauto.
  - destruct (if Str.contains "#" rest then _ else _) as [a b].
    destruct (if Str.contains "?" a then _ else _) as [a' b'].
    simpl. eauto.
Qed.

Lemma safe_key_plain env url :
  plain url -> exists key, safe_key_from_url env url = Return key.
Proof.
  intros P. rewrite safe_key_from_url_unfold. unfold Urllib.urlparse.
  destruct (urlsplit_plain env url P) as [r ->].
  rewrite (str_encode_ascii url (proj2 (proj2 P))).
  destruct (_ && _); [destruct (Urllib.splitparams _)|]; eauto.
Qed.

(** X14.  On a URL of ASCII characters without square brackets the key
    deriver always returns: the parser can raise only on brackets in the
    host or on non-ASCII hosts. *)
Theorem key_deriver_total_on_plain_urls env url :
  plain url -> exists key, safe_key_from_url env url = Return key.
Proof.
  intros P. rewrite safe_key_from_url_unfold. unfold Urllib.urlparse.
  destruct (urlsplit_plain env url P) as [r ->].
  rewrite (str_encode_ascii url (proj2 (proj2 P))).
  destruct (_ && _); [destruct (Urllib.splitparams _)|]; eauto.
Qed.

Lemma key_deriver_total_on_plain_urls_witness :
  exists key,
    safe_key_from_url sample_env "https://example.com/a/b?x=1#top" = Return key.
Proof.
  apply key_deriver_total_on_plain_urls. repeat split; reflexivity.
Defined.

(** X15.  For an effective URL of ASCII characters without square
    brackets that the encoder accepts, [generate_qr] ends with a response,
    a 400 or a 500: no other exception leaves the handler, whatever the
    storage client does. *)
Theorem structured_answer_for_plain_urls env req q w u body :
  final_url req q = Some u -> plain u ->
  qr_png env u = Return body ->
  (exists resp, fst (generate_qr env req q w) = Return resp)
  \/ (exists detail,
        fst (generate_qr env req q w) = Raise (HTTPException 400 detail))
  \/ (exists detail,
        fst (generate_qr env req q w) = Raise (HTTPException 500 detail)).
Proof.
  intros F P Q. destruct (safe_key_plain env u P) as [key K].
  destruct (generate_qr env req q w) as [[resp|e] w'] eqn:R; [eauto|].
  apply generate_qr_raises_inv in R
    as [(d & -> & _)|[(d & ->)|(u' & F' & _ & [K'|Q'])]]; eauto.
  - assert (u' = u) as -> by congruence. congruence.
  - assert (u' = u) as -> by congruence. congruence.
Qed.

Lemma structured_answer_for_plain_urls_witness :
  (exists resp,
      fst (generate_qr sample_env None (Some "https://example.com/page"%string)
             empty_world) = Return resp)
  \/ (exists detail,
        fst (generate_qr sample_env None (Some "https://example.com/page"%string)
               empty_world) = Raise (HTTPException 400 detail))
  \/ (exists detail,
        fst (generate_qr sample_env None (Some "https://example.com/page"%string)
               empty_world) = Raise (HTTPException 500 detail)).
Proof.
  apply (structured_answer_for_plain_urls sample_env None
           (Some "https://example.com/page"%string) empty_world
           "https://example.com/page" []);
    [reflexivity | repeat split; reflexivity | reflexivity].
Defined.
